(** * sqlalchemy.sql.coercions: the role-based coercion engine

    A shallow embedding of [sql/coercions.py].  The dispatcher [expect], the
    rule sets ([...Impl] classes) and their mixins are translated function by
    function.  The modules the file imports ([roles], [elements],
    [selectable], [schema], [inspection], [util]) are consumed through the
    interface [Elements]: every constructor, method and attribute that
    [coercions.py] calls on them is a field of that interface, so every
    result below holds for any implementation of those modules. *)

From Stdlib Require Import String Ascii List Bool ZArith Lia.
From Stdlib Require Import DecimalString.
Import ListNotations.
Local Open Scope string_scope.
Local Open Scope list_scope.

Set Implicit Arguments.

(** ** Roles

    The registry loop at the end of the file pairs every [roles.XRole] with
    the class [XImpl] of [coercions.py]; the registered roles are therefore
    the ones that have an [Impl] class. *)

Inductive role : Type :=
| ExpressionElementRole | BinaryElementRole | InElementRole
| WhereHavingRole | StatementOptionRole | ColumnArgumentRole
| ColumnArgumentOrKeyRole | ByOfRole | OrderByRole | DMLColumnRole
| ConstExprRole | TruncatedLabelRole | DDLExpressionRole
| DDLConstraintColumnRole | LimitOffsetRole | LabeledColumnExprRole
| ColumnsClauseRole | ReturnsRowsRole | StatementRole
| CoerceTextStatementRole | SelectStatementRole | HasCTERole
| FromClauseRole | StrictFromClauseRole | AnonymizedFromClauseRole
| DMLSelectRole | CompoundElementRole.

(** ** Operators

    The functions of the [operators] module that [coercions.py] names, the
    not-in operator that is the other caller of the IN role, and any other
    operator function. *)

Inductive operator : Type :=
| in_op | notin_op | empty_in_op | empty_notin_op
| other_op (name : string).

(** [operator is operators.in_op] *)
Definition is_in_op (op : operator) : bool :=
  match op with in_op => true | _ => false end.

(** ** Candidate values

    The dynamically typed inputs of [expect].  [PNode] is a value for which
    [isinstance(v, (ClauseElement, SchemaItem))] holds.  [PHook] is an object
    that is not such a node and has a [__clause_element__] method returning
    [inner] ([colops] says whether it is a [ColumnOperators]); hook chains
    are finite.  [PObj] is any other object.  [PTruncLabel] is an instance
    of [elements._truncated_label], a subclass of [str].  [PFloat] carries
    the text that [str()] gives for the float.  [PList] is any iterable that
    is not a string. *)

Record pyobj : Type := {
  obj_name : string;
  obj_visitable : bool;          (* isinstance(o, (Visitable, SchemaEventTarget)) *)
  obj_column_operators : bool    (* isinstance(o, ColumnOperators) *)
}.

#[warnings="-register-all"]
Inductive pyval (node : Type) : Type :=
| PNone
| PBool (b : bool)
| PInt (z : Z)
| PFloat (text : string)
| PStr (s : string)
| PTruncLabel (s : string)
| PList (items : list (pyval node))
| PNode (n : node)
| PHook (colops : bool) (inner : pyval node)
| PObj (o : pyobj).

Arguments PNone {node}.
Arguments PBool {node} b.
Arguments PInt {node} z.
Arguments PFloat {node} text.
Arguments PStr {node} s.
Arguments PTruncLabel {node} s.
Arguments PList {node} items.
Arguments PHook {node} colops inner.
Arguments PObj {node} o.

(** ** Exceptions, the diagnostic channel and the monad of the engine

    [exc.ArgumentError] is the spec's CoercionError.  The other exceptions
    are the ones Python itself raises on the paths of this file. *)

Inductive exn : Type :=
| ArgumentError (msg : string)
| AttributeError
| TypeError
| ValueError
| OverflowError
| NotImplementedError.

Inductive hook : Type := LiteralCoercion | ImplicitCoercions.

(** What [int(v)] does: a number, or one of the errors it raises. *)
Inductive int_result : Type :=
| IntOf (z : Z)
| IntValueError
| IntTypeError
| IntOverflowError.

(** An event is a deprecation notice sent through [util.warn_deprecated], or
    the (ghost) record that the dispatcher called a rule set's literal or
    implicit coercion. *)
Inductive event : Type :=
| Deprecated (msg : string)
| Invoked (h : hook) (r : role).

Inductive outcome (A : Type) : Type :=
| Return (a : A)
| Raise (e : exn).

Arguments Raise {A} e.

(** A computation yields the events it emitted and how it ended. *)
Definition M (A : Type) : Type := (list event * outcome A)%type.

Definition ret {A} (a : A) : M A := ([], Return a).

Definition raise {A} (e : exn) : M A := ([], Raise e).

Definition emit (ev : event) : M unit := ([ev], Return tt).

Definition bind {A B} (m : M A) (f : A -> M B) : M B :=
  match m with
  | (log, Return a) => let (log', o) := f a in (log ++ log', o)
  | (log, Raise e) => (log, Raise e)
  end.

(** [try: m except ArgumentError: handler] *)
Definition except_ArgumentError {A} (m : M A) (handler : M A) : M A :=
  match m with
  | (log, Raise (ArgumentError _)) => let (log', o) := handler in (log ++ log', o)
  | _ => m
  end.

Notation "x <- c1 ;; c2" := (bind c1 (fun x => c2))
  (at level 61, c1 at next level, right associativity).
Notation "c1 ;;; c2" := (bind c1 (fun _ => c2))
  (at level 61, right associativity).

Fixpoint mapM {A B} (f : A -> M B) (l : list A) : M (list B) :=
  match l with
  | [] => ret []
  | x :: xs => y <- f x ;; ys <- mapM f xs ;; ret (y :: ys)
  end.

Definition notices (log : list event) : list string :=
  flat_map (fun ev => match ev with Deprecated m => [m] | _ => [] end) log.

Definition invocations (log : list event) : list (hook * role) :=
  flat_map (fun ev => match ev with Invoked h r => [(h, r)] | _ => [] end) log.

(** ** Python builtins on the primitive values *)

(** [str(z)] for an [int] *)
Definition str_int (z : Z) : string := NilZero.string_of_int (Z.to_int z).

(** [isinstance(v, util.string_types)] *)
Definition is_string {node} (v : pyval node) : bool :=
  match v with PStr _ | PTruncLabel _ => true | _ => false end.

(** [isinstance(v, numbers.Number)]: [bool] is a subclass of [int]. *)
Definition is_number {node} (v : pyval node) : bool :=
  match v with PInt _ | PFloat _ | PBool _ => true | _ => false end.

(** The characters of a [str] value. *)
Definition str_content {node} (v : pyval node) : string :=
  match v with PStr s | PTruncLabel s => s | _ => "" end.

(** [str(v)] for strings and numbers. *)
Definition py_str {node} (v : pyval node) : string :=
  match v with
  | PStr s | PTruncLabel s => s
  | PInt z => str_int z
  | PFloat t => t
  | PBool true => "True"
  | PBool false => "False"
  | _ => ""
  end.

(** [if argname:] *)
Definition truthy (argname : option string) : bool :=
  match argname with
  | None => false
  | Some s => negb (String.eqb s "")
  end.

(** ** The interface to the imported modules *)

Class Elements : Type := {
  node : Type;                     (* ClauseElement and SchemaItem instances *)
  sqltype : Type;                  (* TypeEngine objects *)
  (* roles *)
  role_name : role -> string;              (* role_class._role_name *)
  uses_inspection : role -> bool;          (* issubclass(role_class, roles.UsesInspection) *)
  TextClause_in_role : role -> bool;       (* issubclass(elements.TextClause, role_class) *)
  instance_of : role -> node -> bool;      (* issubclass(n.__class__, role_class) *)
  (* class tests *)
  is_ColumnOperators : node -> bool;
  is_Alias : node -> bool;
  is_ClauseList : node -> bool;
  is_BindParameter : node -> bool;
  is_Tuple : node -> bool;
  (* attributes *)
  _is_select_statement : node -> bool;
  _is_from_clause : node -> bool;
  _is_text_clause : node -> bool;
  _order_by_label_element : node -> option node;
  original : node -> node;
  key : node -> pyval node;
  clauses : node -> list node;
  expanding : node -> bool;
  type_isnull : node -> bool;              (* n.type._isnull *)
  type_of : node -> sqltype;               (* n.type *)
  tuple_types : node -> list sqltype;      (* [elem.type for elem in expr] *)
  (* constructors *)
  Null : node;
  False_ : node;
  True_ : node;
  ColumnClause : string -> bool -> node;   (* ColumnClause(text, is_literal=b) *)
  TextClause : string -> node;
  _textual_label_reference : string -> node;
  _label_reference : node -> node;
  ClauseList : list (pyval node) -> node;
  BindParameter : option string -> pyval node -> option sqltype -> M node;
  _OffsetLimitParam : option string -> Z -> option sqltype -> node;
  _truncated_label : pyval node -> pyval node;
  (* methods *)
  scalar_subquery : node -> node;
  subquery : node -> node;
  select : node -> node;
  columns : node -> node;
  alias : node -> bool -> node;            (* n.alias(flat=b) *)
  label_None : node -> node;               (* n.label(None) *)
  self_group : node -> operator -> node;   (* n.self_group(against=op) *)
  _annotate_in_ops : node -> operator * operator -> node;
                                           (* n._annotate(dict(in_ops=(op, negate_op))) *)
  _clone : node -> node;
  set_type : node -> sqltype -> node;      (* n.type = t *)
  _with_expanding_in_types : node -> list sqltype -> node;
  _bind_param : node -> operator -> pyval node -> option sqltype -> M node;
                                           (* expr._bind_param(operator, v, type_=t) *)
  (* inspection, util, builtins *)
  inspect : pyval node -> option (option (pyval node));
      (* inspection.inspect(v, raiseerr=False): [None] when it declines,
         [Some None] for a descriptor without [__clause_element__],
         [Some (Some w)] for a descriptor whose [__clause_element__()] is [w] *)
  ellipses_string : string -> string;      (* util.ellipses_string *)
  asint : pyval node -> int_result;        (* util.asint *)
  repr : pyval node -> string              (* the %r conversion *)
}.

(** ** Keyword arguments

    [expect(role, element, **kw)] forwards its options to the methods of the
    rule set; each method binds the names of its own signature.  A field is
    [None] when the keyword was not passed; [argname], [name], [type_] and
    [bindparam_type] may also be passed as Python's [None]. *)

Inductive keyword : Type :=
| Kargname | Kname | Ktype_ | Kbindparam_type | Kexpr | Koperator
| Kas_key | Kflat | Kallow_select.

Definition all_keys : list keyword :=
  [Kargname; Kname; Ktype_; Kbindparam_type; Kexpr; Koperator;
   Kas_key; Kflat; Kallow_select].

Definition keyword_eqb (a b : keyword) : bool :=
  match a, b with
  | Kargname, Kargname | Kname, Kname | Ktype_, Ktype_
  | Kbindparam_type, Kbindparam_type | Kexpr, Kexpr | Koperator, Koperator
  | Kas_key, Kas_key | Kflat, Kflat | Kallow_select, Kallow_select => true
  | _, _ => false
  end.

Definition is_some {A} (o : option A) : bool :=
  match o with Some _ => true | None => false end.

Section Engine.

Context {E : Elements}.

Abbreviation value := (pyval node).

Record kwargs : Type := {
  kw_argname : option (option string);
  kw_name : option (option string);
  kw_type_ : option (option sqltype);
  kw_bindparam_type : option (option sqltype);
  kw_expr : option node;
  kw_operator : option operator;
  kw_as_key : option bool;
  kw_flat : option bool;
  kw_allow_select : option bool;
  kw_other : list string          (* any other keyword that was passed *)
}.

(** A call without options. *)
Definition no_kw : kwargs :=
  {| kw_argname := None; kw_name := None; kw_type_ := None;
     kw_bindparam_type := None; kw_expr := None; kw_operator := None;
     kw_as_key := None; kw_flat := None; kw_allow_select := None;
     kw_other := [] |}.

Definition present (kw : kwargs) (k : keyword) : bool :=
  match k with
  | Kargname => is_some (kw_argname kw)
  | Kname => is_some (kw_name kw)
  | Ktype_ => is_some (kw_type_ kw)
  | Kbindparam_type => is_some (kw_bindparam_type kw)
  | Kexpr => is_some (kw_expr kw)
  | Koperator => is_some (kw_operator kw)
  | Kas_key => is_some (kw_as_key kw)
  | Kflat => is_some (kw_flat kw)
  | Kallow_select => is_some (kw_allow_select kw)
  end.

(** Every keyword that was passed is one of [params]: what a method
    without [**kw] needs in order not to raise [TypeError]. *)
Definition only_keywords (params : list keyword) (kw : kwargs) : bool :=
  forallb (fun k => implb (present kw k) (existsb (keyword_eqb k) params)) all_keys
  && match kw_other kw with [] => true | _ => false end.

(** [f(..., argname=a, **kw)] *)
Definition with_argname (a : option string) (kw : kwargs) : kwargs :=
  {| kw_argname := Some a; kw_name := kw_name kw; kw_type_ := kw_type_ kw;
     kw_bindparam_type := kw_bindparam_type kw; kw_expr := kw_expr kw;
     kw_operator := kw_operator kw; kw_as_key := kw_as_key kw;
     kw_flat := kw_flat kw; kw_allow_select := kw_allow_select kw;
     kw_other := kw_other kw |}.

(** The [**kw] left once a signature has bound [expr] and [operator]. *)
Definition without_expr_operator (kw : kwargs) : kwargs :=
  {| kw_argname := kw_argname kw; kw_name := kw_name kw;
     kw_type_ := kw_type_ kw; kw_bindparam_type := kw_bindparam_type kw;
     kw_expr := None; kw_operator := None; kw_as_key := kw_as_key kw;
     kw_flat := kw_flat kw; kw_allow_select := kw_allow_select kw;
     kw_other := kw_other kw |}.

(** The [**kw] left once a signature has bound [argname]. *)
Definition without_argname (kw : kwargs) : kwargs :=
  {| kw_argname := None; kw_name := kw_name kw; kw_type_ := kw_type_ kw;
     kw_bindparam_type := kw_bindparam_type kw; kw_expr := kw_expr kw;
     kw_operator := kw_operator kw; kw_as_key := kw_as_key kw;
     kw_flat := kw_flat kw; kw_allow_select := kw_allow_select kw;
     kw_other := kw_other kw |}.

Definition joined {A} (o : option (option A)) : option A :=
  match o with Some a => a | None => None end.

(** The parameters with defaults: [argname=None], [name=None], ... *)
Definition get_argname (kw : kwargs) : option string := joined (kw_argname kw).
Definition get_name (kw : kwargs) : option string := joined (kw_name kw).
Definition get_type_ (kw : kwargs) : option sqltype := joined (kw_type_ kw).
Definition get_bindparam_type (kw : kwargs) : option sqltype :=
  joined (kw_bindparam_type kw).
Definition get_as_key (kw : kwargs) : bool :=
  match kw_as_key kw with Some b => b | None => false end.
Definition get_flat (kw : kwargs) : bool :=
  match kw_flat kw with Some b => b | None => false end.
Definition get_allow_select (kw : kwargs) : bool :=
  match kw_allow_select kw with Some b => b | None => false end.

(** ** Helpers of the module *)

(** [isinstance(v, (elements.ClauseElement, schema.SchemaItem))] *)
Definition is_node (v : value) : bool :=
  match v with PNode _ => true | _ => false end.

(** [hasattr(v, "__clause_element__")] for a value that is not a node. *)
Definition has_hook (v : value) : bool :=
  match v with PHook _ _ => true | _ => false end.

(** [issubclass(v.__class__, role_class)]: the role classes are mixed into
    node classes only. *)
Definition in_role (r : role) (v : value) : bool :=
  match v with PNode n => instance_of r n | _ => false end.

(** [isinstance(v, operators.ColumnOperators)] *)
Definition column_operators (v : value) : bool :=
  match v with
  | PNode n => is_ColumnOperators n
  | PHook colops _ => colops
  | PObj o => obj_column_operators o
  | _ => false
  end.

Definition _is_literal (element : value) : bool :=
  negb (match element with
        | PNode _ => true
        | PObj o => obj_visitable o
        | _ => false
        end)
  && negb (has_hook element).

(** ** RoleImpl *)

Definition expected_message (r : role) (argname : option string)
    (element : value) : string :=
  if truthy argname then
    role_name r ++ " expected for argument "
      ++ repr (PStr (match argname with Some a => a | None => "" end))
      ++ "; got " ++ repr element ++ "."
  else
    role_name r ++ " expected, got " ++ repr element ++ ".".

Definition _raise_for_expected {A} (r : role) (element : value)
    (argname : option string) : M A :=
  raise (ArgumentError (expected_message r argname element)).

(** [self._raise_for_expected(element, **kw)] *)
Definition _raise_for_expected_kw {A} (r : role) (element : value)
    (kw : kwargs) : M A :=
  if only_keywords [Kargname] kw
  then _raise_for_expected r element (get_argname kw)
  else raise TypeError.

Definition RoleImpl_literal_coercion (r : role) (element : value)
    (kw : kwargs) : M value :=
  raise NotImplementedError.

Definition RoleImpl_implicit_coercions (r : role) (element resolved : value)
    (kw : kwargs) : M value :=
  _raise_for_expected r element (get_argname kw).

(** The [while] loop of [_resolve_for_clause_element]: the element it ends
    on, and whether the hook was called at all. *)
Fixpoint unwrap (element : value) : value * bool :=
  match element with
  | PHook _ inner => (fst (unwrap inner), true)
  | _ => (element, false)
  end.

(** ** Text coercion *)

Definition argname_part (argname : option string) : string :=
  match argname with
  | Some a => if truthy argname then "for argument " ++ a else ""
  | None => ""
  end.

Definition no_text_message (element : string) (argname : option string)
    : string :=
  "Textual SQL expression " ++ repr (PStr (ellipses_string element)) ++ " "
    ++ argname_part argname
    ++ "should be explicitly declared as text("
    ++ repr (PStr (ellipses_string element)) ++ ")".

Definition _no_text_coercion {A} (element : value)
    (argname : option string) : M A :=
  raise (ArgumentError (no_text_message (str_content element) argname)).

Definition _NoTextCoercion_literal_coercion (r : role) (element : value)
    (kw : kwargs) : M value :=
  if is_string element && TextClause_in_role r
  then _no_text_coercion element (get_argname kw)
  else _raise_for_expected r element (get_argname kw).

(** [re.compile(r"^\w\S*$", re.I).match(s)] on ASCII text: a word character
    followed by characters that are not white space, up to the end of the
    string or to a final newline. *)
Definition is_word_char (c : ascii) : bool :=
  let n := nat_of_ascii c in
  (((48 <=? n) && (n <=? 57)) || ((65 <=? n) && (n <=? 90))
   || ((97 <=? n) && (n <=? 122)) || (n =? 95))%nat.

Definition is_space_char (c : ascii) : bool :=
  let n := nat_of_ascii c in
  (((9 <=? n) && (n <=? 13)) || ((28 <=? n) && (n <=? 32)))%nat.

Fixpoint non_space_to_end (s : string) : bool :=
  match s with
  | EmptyString => true
  | String c EmptyString => negb (is_space_char c) || (nat_of_ascii c =? 10)%nat
  | String c rest => negb (is_space_char c) && non_space_to_end rest
  end.

Definition _guess_straight_column (s : string) : bool :=
  match s with
  | EmptyString => false
  | String c rest => is_word_char c && non_space_to_end rest
  end.

Definition columns_text_message (element : string)
    (argname : option string) : string :=
  "Textual column expression " ++ repr (PStr (ellipses_string element)) ++ " "
    ++ argname_part argname
    ++ "should be explicitly declared with text("
    ++ repr (PStr (ellipses_string element)) ++ "), or use "
    ++ (if negb (_guess_straight_column element)
        then "literal_column" else "column")
    ++ "(" ++ repr (PStr (ellipses_string element)) ++ ") for more specificity".

(** ** The mixins *)

(** [util.warn_deprecated(msg)] *)
Definition warn_deprecated (msg : string) : M unit := emit (Deprecated msg).

Definition scalar_subquery_notice : string :=
  "coercing SELECT object to scalar subquery in a "
  ++ "column-expression context is deprecated in version 1.4; "
  ++ "please use the .scalar_subquery() method to produce a scalar "
  ++ "subquery.  This automatic coercion will be removed in a "
  ++ "future release.".

Definition subquery_notice : string :=
  "Implicit coercion of SELECT and textual SELECT constructs "
  ++ "into FROM clauses is deprecated; please call .subquery() "
  ++ "on any Core select or ORM Query object in order to produce a "
  ++ "subquery object.".

(** [_StringOnly._resolve_for_clause_element] and
    [RoleImpl._resolve_for_clause_element], given the rule set's
    [_literal_coercion]. *)
Definition _StringOnly_resolve_for_clause_element
    (literal : value -> kwargs -> M value)
    (element : value) (kw : kwargs) : M value :=
  literal element (without_argname kw).

Definition RoleImpl_resolve_for_clause_element (r : role)
    (literal : value -> kwargs -> M value)
    (element : value) (kw : kwargs) : M value :=
  let argname := get_argname kw in
  let original_element := element in
  let (element, is_clause_element) := unwrap element in
  if negb is_clause_element then
    if uses_inspection r then
      match inspect element with
      | Some insp =>
          match insp with
          | Some clause => ret clause
          | None => _raise_for_expected r original_element argname
          end
      | None => literal element (with_argname argname kw)
      end
    else literal element (with_argname argname kw)
  else ret element.

Definition _ReturnsStringKey_implicit_coercions (r : role)
    (original_element resolved : value) (kw : kwargs) : M value :=
  if is_string original_element then ret original_element
  else _raise_for_expected r original_element (get_argname kw).

Definition _ReturnsStringKey_literal_coercion (element : value)
    (kw : kwargs) : M value :=
  ret element.

Definition _ColumnCoercions_implicit_coercions (r : role)
    (original_element resolved : value) (kw : kwargs) : M value :=
  match resolved with
  | PNode n =>
      if _is_select_statement n then
        warn_deprecated scalar_subquery_notice ;;;
        ret (PNode (scalar_subquery n))
      else if _is_from_clause n && is_Alias n
              && _is_select_statement (original n) then
        warn_deprecated scalar_subquery_notice ;;;
        ret (PNode (scalar_subquery (original n)))
      else _raise_for_expected r original_element (get_argname kw)
  | _ => raise AttributeError
  end.

Definition _coerce_consts (r : role) : bool :=
  match r with
  | WhereHavingRole | StatementOptionRole | ByOfRole | OrderByRole
  | DDLExpressionRole | ColumnsClauseRole => true
  | _ => false
  end.

Definition _coerce_star (r : role) : bool :=
  match r with ColumnsClauseRole => true | _ => false end.

Definition _coerce_numerics (r : role) : bool :=
  match r with ColumnsClauseRole => true | _ => false end.

(** [self._text_coercion(element, argname)], resolved along the bases of
    each rule set. *)
Definition _text_coercion (r : role) (element : value)
    (argname : option string) : M value :=
  match r with
  | StatementOptionRole | DDLExpressionRole | CoerceTextStatementRole =>
      ret (PNode (TextClause (str_content element)))
  | ByOfRole | OrderByRole =>
      ret (PNode (_textual_label_reference (str_content element)))
  | ColumnsClauseRole =>
      raise (ArgumentError (columns_text_message (py_str element) argname))
  | _ => _no_text_coercion element argname
  end.

Definition _CoerceLiterals_literal_coercion (r : role) (element : value)
    (kw : kwargs) : M value :=
  let argname := get_argname kw in
  if is_string element then
    if _coerce_star r && String.eqb (str_content element) "*"
    then ret (PNode (ColumnClause "*" true))
    else _text_coercion r element argname
  else
    match _coerce_consts r, element with
    | true, PNone => ret (PNode Null)
    | true, PBool false => ret (PNode False_)
    | true, PBool true => ret (PNode True_)
    | _, _ =>
        if _coerce_numerics r && is_number element
        then ret (PNode (ColumnClause (py_str element) true))
        else _raise_for_expected r element argname
    end.

(** ** The rule sets *)

Definition ExpressionElementImpl_literal_coercion (r : role)
    (element : value) (kw : kwargs) : M value :=
  match element with
  | PNone => ret (PNode Null)
  | _ =>
      except_ArgumentError
        (n <- BindParameter (get_name kw) element (get_type_ kw) ;;
         ret (PNode n))
        (_raise_for_expected r element None)
  end.

Definition BinaryElementImpl_literal_coercion (r : role)
    (element : value) (kw : kwargs) : M value :=
  match kw_expr kw, kw_operator kw with
  | Some expr, Some op =>
      except_ArgumentError
        (n <- _bind_param expr op element (get_bindparam_type kw) ;;
         ret (PNode n))
        (_raise_for_expected r element None)
  | _, _ => raise TypeError
  end.

Definition BinaryElementImpl_post_coercion (resolved : node)
    (kw : kwargs) : M value :=
  match kw_expr kw with
  | Some expr =>
      if is_BindParameter resolved && type_isnull resolved
      then ret (PNode (set_type (_clone resolved) (type_of expr)))
      else ret (PNode resolved)
  | None => raise TypeError
  end.

(** [resolved.select()], or the SELECT under an alias of one. *)
Definition select_of_from_clause (r : role)
    (original_element resolved : value) (kw : kwargs) : M value :=
  match resolved with
  | PNode n =>
      if _is_from_clause n then
        if is_Alias n && _is_select_statement (original n)
        then ret (PNode (original n))
        else ret (PNode (select n))
      else _raise_for_expected r original_element (get_argname kw)
  | _ => raise AttributeError
  end.

Definition InElementImpl_implicit_coercions := select_of_from_clause.

(** The body of the [for o in element] loop: the value appended to [args]. *)
Definition in_element (r : role) (element : value) (expr : node)
    (op : operator) (kw : kwargs) (o : value) : M value :=
  if negb (_is_literal o) then
    if negb (column_operators o)
    then _raise_for_expected_kw r element kw
    else ret o
  else
    match o with
    | PNone => ret (PNode Null)
    | _ => n <- _bind_param expr op o None ;; ret (PNode n)
    end.

Definition InElementImpl_literal_coercion (r : role) (element : value)
    (kw : kwargs) : M value :=
  match kw_expr kw, kw_operator kw with
  | Some expr, Some op =>
      let kw := without_expr_operator kw in
      match element with
      | PList items =>
          args <- mapM (in_element r element expr op kw) items ;;
          ret (PNode (ClauseList args))
      | _ => _raise_for_expected_kw r element kw
      end
  | _, _ => raise TypeError
  end.

Definition InElementImpl_post_coercion (element : node)
    (kw : kwargs) : M value :=
  match kw_expr kw, kw_operator kw with
  | Some expr, Some op =>
      if _is_select_statement element then
        ret (PNode (scalar_subquery element))
      else if is_ClauseList element then
        if (length (clauses element) =? 0)%nat then
          let '(op', negate_op) :=
            if is_in_op op then (empty_in_op, empty_notin_op)
            else (empty_notin_op, empty_in_op) in
          ret (PNode (_annotate_in_ops (self_group element op')
                        (op', negate_op)))
        else ret (PNode (self_group element op))
      else if is_BindParameter element && expanding element then
        if is_Tuple expr
        then ret (PNode (_with_expanding_in_types element (tuple_types expr)))
        else ret (PNode element)
      else ret (PNode element)
  | _, _ => raise TypeError
  end.

Definition OrderByImpl_post_coercion (resolved : node)
    (kw : kwargs) : M value :=
  if only_keywords [] kw then
    if instance_of OrderByRole resolved
       && is_some (_order_by_label_element resolved)
    then ret (PNode (_label_reference resolved))
    else ret (PNode resolved)
  else raise TypeError.

Definition DMLColumnImpl_post_coercion (element : node)
    (kw : kwargs) : M value :=
  if only_keywords [Kas_key] kw then
    if get_as_key kw then ret (key element) else ret (PNode element)
  else raise TypeError.

Definition ConstExprImpl_literal_coercion (r : role) (element : value)
    (kw : kwargs) : M value :=
  match element with
  | PNone => ret (PNode Null)
  | PBool false => ret (PNode False_)
  | PBool true => ret (PNode True_)
  | _ => _raise_for_expected r element (get_argname kw)
  end.

Definition TruncatedLabelImpl_implicit_coercions (r : role)
    (original_element resolved : value) (kw : kwargs) : M value :=
  if is_string original_element then ret resolved
  else _raise_for_expected r original_element (get_argname kw).

Definition TruncatedLabelImpl_literal_coercion (element : value)
    (kw : kwargs) : M value :=
  match element with
  | PTruncLabel _ => ret element
  | _ => ret (_truncated_label element)
  end.

Definition LimitOffsetImpl_implicit_coercions (r : role)
    (element resolved : value) (kw : kwargs) : M value :=
  match resolved with
  | PNone => ret PNone
  | _ => _raise_for_expected r element (get_argname kw)
  end.

Definition LimitOffsetImpl_literal_coercion (element : value)
    (kw : kwargs) : M value :=
  match kw_name kw, kw_type_ kw with
  | Some name, Some type_ =>
      match element with
      | PNone => ret PNone
      | _ =>
          match asint element with
          | IntOf z => ret (PNode (_OffsetLimitParam name z type_))
          | IntValueError => raise ValueError
          | IntTypeError => raise TypeError
          | IntOverflowError => raise OverflowError
          end
      end
  | _, _ => raise TypeError
  end.

Definition label_of (v : value) : value :=
  match v with PNode n => PNode (label_None n) | _ => v end.

Definition LabeledColumnExprImpl_implicit_coercions (r : role)
    (original_element resolved : value) (kw : kwargs) : M value :=
  if in_role ExpressionElementRole resolved then ret (label_of resolved)
  else
    new <- _ColumnCoercions_implicit_coercions r original_element resolved
             (with_argname (get_argname kw) kw) ;;
    if in_role ExpressionElementRole new then ret (label_of new)
    else _raise_for_expected r original_element (get_argname kw).

Definition SelectStatementImpl_implicit_coercions (r : role)
    (original_element resolved : value) (kw : kwargs) : M value :=
  match resolved with
  | PNode n =>
      if _is_text_clause n then ret (PNode (columns n))
      else _raise_for_expected r original_element (get_argname kw)
  | _ => raise AttributeError
  end.

Definition FromClauseImpl_implicit_coercions (r : role)
    (original_element resolved : value) (kw : kwargs) : M value :=
  match resolved with
  | PNode n =>
      if _is_text_clause n then ret resolved
      else _raise_for_expected r original_element (get_argname kw)
  | _ => raise AttributeError
  end.

Definition StrictFromClauseImpl_implicit_coercions (r : role)
    (original_element resolved : value) (kw : kwargs) : M value :=
  match resolved with
  | PNode n =>
      if _is_select_statement n && get_allow_select kw then
        warn_deprecated subquery_notice ;;;
        ret (PNode (subquery n))
      else _raise_for_expected r original_element (get_argname kw)
  | _ => raise AttributeError
  end.

Definition AnonymizedFromClauseImpl_post_coercion (element : node)
    (kw : kwargs) : M value :=
  ret (PNode (alias element (get_flat kw))).

Definition DMLSelectImpl_implicit_coercions := select_of_from_clause.

Definition CompoundElementImpl_implicit_coercions (r : role)
    (original_element resolved : value) (kw : kwargs) : M value :=
  if only_keywords [Kargname] kw then
    match resolved with
    | PNode n =>
        if _is_from_clause n then ret resolved
        else _raise_for_expected r original_element (get_argname kw)
    | _ => raise AttributeError
    end
  else raise TypeError.

(** ** Method resolution

    [impl._literal_coercion], [impl._implicit_coercions],
    [impl._post_coercion] and [impl._resolve_for_clause_element] for the
    rule set registered for each role, following the bases of its class. *)

Definition _literal_coercion (r : role) (element : value) (kw : kwargs)
    : M value :=
  emit (Invoked LiteralCoercion r) ;;;
  match r with
  | ExpressionElementRole | LabeledColumnExprRole =>
      ExpressionElementImpl_literal_coercion r element kw
  | BinaryElementRole => BinaryElementImpl_literal_coercion r element kw
  | InElementRole => InElementImpl_literal_coercion r element kw
  | WhereHavingRole | StatementOptionRole | ByOfRole | OrderByRole
  | DDLExpressionRole | ColumnsClauseRole | CoerceTextStatementRole =>
      _CoerceLiterals_literal_coercion r element kw
  | ColumnArgumentRole | StatementRole | SelectStatementRole
  | FromClauseRole | StrictFromClauseRole | AnonymizedFromClauseRole
  | DMLSelectRole | CompoundElementRole =>
      _NoTextCoercion_literal_coercion r element kw
  | ColumnArgumentOrKeyRole | DMLColumnRole | DDLConstraintColumnRole =>
      _ReturnsStringKey_literal_coercion element kw
  | ConstExprRole => ConstExprImpl_literal_coercion r element kw
  | TruncatedLabelRole => TruncatedLabelImpl_literal_coercion element kw
  | LimitOffsetRole => LimitOffsetImpl_literal_coercion element kw
  | ReturnsRowsRole | HasCTERole => RoleImpl_literal_coercion r element kw
  end.

Definition _implicit_coercions (r : role) (element resolved : value)
    (kw : kwargs) : M value :=
  emit (Invoked ImplicitCoercions r) ;;;
  match r with
  | ExpressionElementRole | BinaryElementRole | WhereHavingRole
  | ByOfRole | OrderByRole =>
      _ColumnCoercions_implicit_coercions r element resolved kw
  | InElementRole => InElementImpl_implicit_coercions r element resolved kw
  | StatementOptionRole | ColumnArgumentRole | ConstExprRole
  | DDLExpressionRole | ColumnsClauseRole | ReturnsRowsRole
  | StatementRole | CoerceTextStatementRole | HasCTERole =>
      RoleImpl_implicit_coercions r element resolved kw
  | ColumnArgumentOrKeyRole | DMLColumnRole | DDLConstraintColumnRole =>
      _ReturnsStringKey_implicit_coercions r element resolved kw
  | TruncatedLabelRole =>
      TruncatedLabelImpl_implicit_coercions r element resolved kw
  | LimitOffsetRole =>
      LimitOffsetImpl_implicit_coercions r element resolved kw
  | LabeledColumnExprRole =>
      LabeledColumnExprImpl_implicit_coercions r element resolved kw
  | SelectStatementRole =>
      SelectStatementImpl_implicit_coercions r element resolved kw
  | FromClauseRole => FromClauseImpl_implicit_coercions r element resolved kw
  | StrictFromClauseRole | AnonymizedFromClauseRole =>
      StrictFromClauseImpl_implicit_coercions r element resolved kw
  | DMLSelectRole => DMLSelectImpl_implicit_coercions r element resolved kw
  | CompoundElementRole =>
      CompoundElementImpl_implicit_coercions r element resolved kw
  end.

(** [None] is the class attribute [RoleImpl._post_coercion = None]. *)
Definition _post_coercion (r : role) : option (node -> kwargs -> M value) :=
  match r with
  | BinaryElementRole => Some BinaryElementImpl_post_coercion
  | InElementRole => Some InElementImpl_post_coercion
  | OrderByRole => Some OrderByImpl_post_coercion
  | DMLColumnRole => Some DMLColumnImpl_post_coercion
  | AnonymizedFromClauseRole => Some AnonymizedFromClauseImpl_post_coercion
  | _ => None
  end.

Definition _resolve_for_clause_element (r : role) (element : value)
    (kw : kwargs) : M value :=
  match r with
  | TruncatedLabelRole =>
      _StringOnly_resolve_for_clause_element (_literal_coercion r) element kw
  | _ => RoleImpl_resolve_for_clause_element r (_literal_coercion r) element kw
  end.

(** ** The dispatcher *)

Definition expect (r : role) (element : value) (kw : kwargs) : M value :=
  resolved <- (if negb (is_node element)
               then _resolve_for_clause_element r element kw
               else ret element) ;;
  if in_role r resolved then
    match _post_coercion r, resolved with
    | Some post, PNode n => post n kw
    | _, _ => ret resolved
    end
  else _implicit_coercions r element resolved kw.

(** [kw["as_key"] = True] *)
Definition with_as_key (kw : kwargs) : kwargs :=
  {| kw_argname := kw_argname kw; kw_name := kw_name kw;
     kw_type_ := kw_type_ kw; kw_bindparam_type := kw_bindparam_type kw;
     kw_expr := kw_expr kw; kw_operator := kw_operator kw;
     kw_as_key := Some true; kw_flat := kw_flat kw;
     kw_allow_select := kw_allow_select kw; kw_other := kw_other kw |}.

Definition expect_as_key (r : role) (element : value) (kw : kwargs)
    : M value :=
  expect r element (with_as_key kw).

(** ** Vocabulary of the properties *)

(** The rule sets that list [_NoTextCoercion] among their bases. *)
Definition no_text_coercion_policy (r : role) : bool :=
  match r with
  | ColumnArgumentRole | StatementRole | SelectStatementRole
  | FromClauseRole | StrictFromClauseRole | AnonymizedFromClauseRole
  | DMLSelectRole | CompoundElementRole => true
  | _ => false
  end.

(** The value is the node [n], or a chain of conversion hooks ending in it:
    [n] is what the dispatcher calls [resolved]. *)
Definition resolves_to (element : value) (n : node) : Prop :=
  fst (unwrap element) = PNode n.




(** A computation raises [ArgumentError] only with a message in [P]. *)
Definition argument_errors_in {A} (P : string -> Prop) (m : M A) : Prop :=
  forall log msg, m = (log, Raise (ArgumentError msg)) -> P msg.

(** A computation calls no literal or implicit coercion. *)
Definition calls_no_coercion {A} (m : M A) : Prop :=
  invocations (fst m) = [].

End Engine.

(** ** The batch resolver and the remaining vocabulary *)

Section Callers.

Context {E : Elements}.

Abbreviation value := (pyval node).

(** What [expect] does with [resolved]: step 4 of the dispatcher. *)
Definition accept_or_coerce (r : role) (element resolved : value)
    (kw : kwargs) : M value :=
  if in_role r resolved then
    match _post_coercion r, resolved with
    | Some post, PNode n => post n kw
    | _, _ => ret resolved
    end
  else _implicit_coercions r element resolved kw.

(** The inspection facility does not step in for this role and value:
    the role does not use it, or it declines the value. *)
Definition inspection_declines (r : role) (v : value) : Prop :=
  uses_inspection r = true -> inspect v = None.

(** The rule sets by the mixin that gives them their methods. *)
Definition returns_string_key (r : role) : bool :=
  match r with
  | ColumnArgumentOrKeyRole | DMLColumnRole | DDLConstraintColumnRole => true
  | _ => false
  end.

Definition column_coercions (r : role) : bool :=
  match r with
  | ExpressionElementRole | BinaryElementRole | WhereHavingRole
  | ByOfRole | OrderByRole => true
  | _ => false
  end.

Definition coerce_literals (r : role) : bool :=
  match r with
  | WhereHavingRole | StatementOptionRole | ByOfRole | OrderByRole
  | DDLExpressionRole | ColumnsClauseRole | CoerceTextStatementRole => true
  | _ => false
  end.

(** The rule sets whose [_implicit_coercions] is the one of [RoleImpl]. *)
Definition default_implicit_coercions (r : role) : bool :=
  match r with
  | StatementOptionRole | ColumnArgumentRole | ConstExprRole
  | DDLExpressionRole | ColumnsClauseRole | ReturnsRowsRole
  | StatementRole | CoerceTextStatementRole | HasCTERole => true
  | _ => false
  end.

(** [None], a boolean, a number or a string. *)
Definition is_primitive (v : value) : bool :=
  match v with
  | PNone | PBool _ | PInt _ | PFloat _ | PStr _ | PTruncLabel _ => true
  | _ => false
  end.

(** One tuple yielded by [expect_col_expression_collection]:
    [(resolved, column, strname, add_element)], with [PNone] for [None]. *)
Record col_expression : Type := {
  ce_resolved : value;
  ce_column : value;
  ce_strname : value;
  ce_add_element : value
}.

(** The body of the [for expr in expressions] loop.  [column_nodes n] is
    the list that [visitors.traverse(n, {}, {"column": cols.append})]
    fills; a value that is not a node cannot be traversed. *)
Definition col_expression_of (column_nodes : node -> list node) (r : role)
    (expr : value) : M col_expression :=
  resolved <- expect r expr no_kw ;;
  if is_string resolved then
    ret {| ce_resolved := expr; ce_column := PNone; ce_strname := expr;
           ce_add_element := expr |}
  else
    match resolved with
    | PNode n =>
        match column_nodes n with
        | column :: _ =>
            ret {| ce_resolved := resolved; ce_column := PNode column;
                   ce_strname := PNone; ce_add_element := PNode column |}
        | [] =>
            ret {| ce_resolved := resolved; ce_column := PNone;
                   ce_strname := PNone; ce_add_element := PNone |}
        end
    | _ => raise AttributeError
    end.

(** The generator, consumed to its end. *)
Definition expect_col_expression_collection
    (column_nodes : node -> list node) (r : role)
    (expressions : list value) : M (list col_expression) :=
  mapM (col_expression_of column_nodes r) expressions.

(** The value [v] behind conversion hooks, outermost first: each object's
    [__clause_element__()] gives the next one, and the last one gives [v]
    ([colops] as in [PHook]). *)
Fixpoint hook_chain (hooks : list bool) (v : value) : value :=
  match hooks with
  | [] => v
  | colops :: rest => PHook colops (hook_chain rest v)
  end.

(** An offending element of an IN list: not a literal, and without the
    comparison operators. *)
Definition not_comparable (o : value) : bool :=
  negb (_is_literal o) && negb (column_operators o).

End Callers.

(** ** A reference implementation of the interface

    Modelled from the spec: the expression-tree node types, the role
    declarations and the inspection facility, which the spec treats as
    opaque collaborators (sections 1 and 6) and which are not part of
    [coercions.py].  Nodes are the terms built by the constructors and
    methods of the interface, so two nodes are equal exactly when they were
    built the same way.  It is used to run the engine on concrete inputs. *)

Module Model.

Inductive ttype : Type := Integer | NullType.

#[warnings="-register-all"]
Inductive tnode : Type :=
| Table (name : string)
| Column (name : string)
| Label (name : string) (element : tnode)
| Desc (element : tnode)
| Select (name : string)
| MetaData
| TNull | TFalse | TTrue
| TColumnClause (text : string) (is_literal : bool)
| TTextClause (text : string)
| TTextualLabelReference (text : string)
| TLabelReference (element : tnode)
| TClauseList (items : list (pyval tnode))
| TBindParameter (name : option string) (v : pyval tnode) (type_ : ttype)
    (is_expanding : bool)
| TOffsetLimitParam (name : option string) (z : Z) (type_ : option ttype)
| TTuple (types : list ttype)
| ScalarSelect (element : tnode)
| Subquery (element : tnode)
| SelectFrom (element : tnode)
| TextualSelect (element : tnode)
| Alias (element : tnode) (flat : bool)
| Grouping (element : tnode) (against : operator)
| Annotated (element : tnode) (in_ops : operator * operator)
| ExpandingTypes (element : tnode) (types : list ttype).

Definition role_eq_dec (a b : role) : {a = b} + {a <> b}.
Proof. decide equality. Defined.

Definition role_eqb (a b : role) : bool :=
  if role_eq_dec a b then true else false.

(** The registered role that a role class derives from, if any. *)
Definition role_base (r : role) : option role :=
  match r with
  | ColumnArgumentOrKeyRole => Some ColumnArgumentRole
  | OrderByRole => Some ByOfRole
  | ConstExprRole | LabeledColumnExprRole | BinaryElementRole =>
      Some ExpressionElementRole
  | FromClauseRole => Some ColumnsClauseRole
  | StrictFromClauseRole => Some FromClauseRole
  | AnonymizedFromClauseRole => Some StrictFromClauseRole
  | StatementRole => Some CoerceTextStatementRole
  | ReturnsRowsRole => Some StatementRole
  | SelectStatementRole | HasCTERole => Some ReturnsRowsRole
  | _ => None
  end.

Fixpoint ancestors (fuel : nat) (r : role) : list role :=
  r :: match fuel, role_base r with
       | S fuel', Some p => ancestors fuel' p
       | _, _ => []
       end.

Definition column_element_roles : list role :=
  [ColumnArgumentOrKeyRole; StatementOptionRole; WhereHavingRole;
   BinaryElementRole; OrderByRole; ColumnsClauseRole; LimitOffsetRole;
   DMLColumnRole; DDLConstraintColumnRole; DDLExpressionRole].

Definition select_roles : list role :=
  [SelectStatementRole; DMLSelectRole; CompoundElementRole; InElementRole;
   HasCTERole].

(** The role classes among the bases of the node's class. *)
Fixpoint class_roles (n : tnode) : list role :=
  match n with
  | Table _ | Subquery _ | Alias _ _ => [AnonymizedFromClauseRole]
  | Column _ | TColumnClause _ _ | Label _ _ =>
      LabeledColumnExprRole :: column_element_roles
  | Select _ | SelectFrom _ | TextualSelect _ => select_roles
  | MetaData => []
  | TNull | TFalse | TTrue => ConstExprRole :: column_element_roles
  | TTextClause _ =>
      [DDLConstraintColumnRole; DDLExpressionRole; StatementOptionRole;
       WhereHavingRole; OrderByRole; FromClauseRole; SelectStatementRole]
  | TTextualLabelReference _ | TLabelReference _ | TTuple _ | Desc _ =>
      column_element_roles
  | TClauseList _ => [InElementRole; OrderByRole; ColumnsClauseRole]
  | TBindParameter _ _ _ _ | TOffsetLimitParam _ _ _ | ScalarSelect _ =>
      InElementRole :: column_element_roles
  | Grouping e _ | Annotated e _ | ExpandingTypes e _ => class_roles e
  end.

Definition tinstance_of (r : role) (n : tnode) : bool :=
  existsb (fun d => existsb (role_eqb r) (ancestors 4 d)) (class_roles n).

Fixpoint unwrapped (n : tnode) : tnode :=
  match n with
  | Grouping e _ | Annotated e _ | ExpandingTypes e _ => unwrapped e
  | _ => n
  end.

Definition tis_select_statement (n : tnode) : bool :=
  match n with
  | Select _ | SelectFrom _ | TextualSelect _ => true
  | _ => false
  end.

Definition tis_from_clause (n : tnode) : bool :=
  match n with Table _ | Subquery _ | Alias _ _ => true | _ => false end.

(** [_order_by_label_element]: a label is its own; a descending
    expression ([UnaryExpression] with the [desc] modifier) has the one of
    the expression it modifies. *)
Fixpoint tlabel_element (n : tnode) : option tnode :=
  match n with
  | Label _ _ => Some n
  | Desc e => tlabel_element e
  | _ => None
  end.

Fixpoint tclauses (n : tnode) : list tnode :=
  match n with
  | TClauseList items =>
      map (fun v => match v with
                    | PNode m => m
                    | _ => TBindParameter None v NullType false
                    end) items
  | Grouping e _ | Annotated e _ => tclauses e
  | _ => []
  end.

Fixpoint ttype_of (n : tnode) : ttype :=
  match n with
  | TBindParameter _ _ t _ => t
  | TOffsetLimitParam _ _ (Some t) => t
  | TOffsetLimitParam _ _ None => Integer
  | Grouping e _ | Annotated e _ | ExpandingTypes e _ => ttype_of e
  | _ => NullType
  end.

Definition tset_type (n : tnode) (t : ttype) : tnode :=
  match n with
  | TBindParameter name v _ e => TBindParameter name v t e
  | _ => n
  end.

Definition type_for (v : pyval tnode) (type_ : option ttype) : ttype :=
  match type_, v with
  | Some t, _ => t
  | None, PInt _ => Integer
  | None, _ => NullType
  end.

(** The objects known to the inspection registry. *)
Definition tinspect (v : pyval tnode) : option (option (pyval tnode)) :=
  match v with
  | PObj o =>
      if String.eqb (obj_name o) "Engine" then Some None
      else if String.eqb (obj_name o) "MappedClass"
           then Some (Some (PNode (Table "mapped_table")))
           else None
  | _ => None
  end.

(** [BindParameter] refuses objects that the inspection registry knows. *)
Definition tBindParameter (name : option string) (v : pyval tnode)
    (type_ : option ttype) : M tnode :=
  match tinspect v with
  | Some _ =>
      raise (ArgumentError "Object is not legal as a SQL literal value")
  | None => ret (TBindParameter name v (type_for v type_) false)
  end.

(** [int()] on ASCII text. *)
Definition is_digit (c : ascii) : bool :=
  let n := nat_of_ascii c in ((48 <=? n) && (n <=? 57))%nat.

Definition digit_value (c : ascii) : Z := Z.of_nat (nat_of_ascii c - 48).

(** Decimal digits, with single underscores between digits allowed. *)
Fixpoint digits_value (acc : Z) (after_digit : bool) (s : string)
    : option Z :=
  match s with
  | EmptyString => if after_digit then Some acc else None
  | String c rest =>
      if is_digit c then digits_value (10 * acc + digit_value c) true rest
      else if (nat_of_ascii c =? 95)%nat && after_digit
      then digits_value acc false rest
      else None
  end.

Fixpoint lstrip (s : string) : string :=
  match s with
  | String c rest => if is_space_char c then lstrip rest else s
  | EmptyString => s
  end.

Definition string_rev (s : string) : string :=
  string_of_list_ascii (rev (list_ascii_of_string s)).

Definition strip (s : string) : string :=
  string_rev (lstrip (string_rev (lstrip s))).

(** [int(s)] for a string: white space stripped, an optional sign, then
    digits. *)
Definition int_of_text (s : string) : int_result :=
  let unsigned (t : string) := digits_value 0 false t in
  let signed :=
    match strip s with
    | String c rest =>
        if (nat_of_ascii c =? 45)%nat then option_map Z.opp (unsigned rest)
        else if (nat_of_ascii c =? 43)%nat then unsigned rest
        else unsigned (String c rest)
    | EmptyString => None
    end in
  match signed with Some z => IntOf z | None => IntValueError end.

Fixpoint take_digits (s : string) : string * string :=
  match s with
  | String c rest =>
      if is_digit c
      then let (ds, tl) := take_digits rest in (String c ds, tl)
      else (EmptyString, s)
  | EmptyString => (EmptyString, EmptyString)
  end.

Fixpoint plain_digits_value (acc : Z) (s : string) : Z :=
  match s with
  | String c rest => plain_digits_value (10 * acc + digit_value c) rest
  | EmptyString => acc
  end.

(** [int(f)] for a float given by the text of [str(f)]: the value
    truncated toward zero; [OverflowError] for an infinity and
    [ValueError] for a NaN. *)
Definition int_of_float_text (text : string) : int_result :=
  let '(negative, body) :=
    match text with
    | String c rest =>
        if (nat_of_ascii c =? 45)%nat then (true, rest) else (false, text)
    | EmptyString => (false, text)
    end in
  if String.eqb body "inf" then IntOverflowError
  else
    let '(int_part, r1) := take_digits body in
    let '(frac_part, r2) :=
      match r1 with
      | String c rest =>
          if (nat_of_ascii c =? 46)%nat then take_digits rest
          else (EmptyString, r1)
      | EmptyString => (EmptyString, r1)
      end in
    let exponent :=
      match r2 with
      | EmptyString => Some 0%Z
      | String c rest =>
          if (nat_of_ascii c =? 101)%nat then
            match rest with
            | String sign ds =>
                if (nat_of_ascii sign =? 45)%nat
                then option_map Z.opp (digits_value 0 false ds)
                else if (nat_of_ascii sign =? 43)%nat
                     then digits_value 0 false ds
                     else digits_value 0 false rest
            | EmptyString => None
            end
          else None
      end in
    match int_part, exponent with
    | String _ _, Some e =>
        let digits := (int_part ++ frac_part)%string in
        let point := (Z.of_nat (String.length int_part) + e)%Z in
        let size := Z.of_nat (String.length digits) in
        let magnitude :=
          if (point <=? 0)%Z then 0%Z
          else if (size <=? point)%Z
               then (plain_digits_value 0 digits * 10 ^ (point - size))%Z
               else plain_digits_value 0
                      (substring 0 (Z.to_nat point) digits) in
        IntOf (if negative then - magnitude else magnitude)
    | _, _ => IntValueError
    end.

(** [util.asint]: [int(v)]. *)
Definition tasint (v : pyval tnode) : int_result :=
  match v with
  | PInt z => IntOf z
  | PBool true => IntOf 1
  | PBool false => IntOf 0
  | PStr s | PTruncLabel s => int_of_text s
  | PFloat text => int_of_float_text text
  | _ => IntTypeError
  end.

Definition tellipses_string (s : string) : string :=
  if (25 <? String.length s)%nat then substring 0 25 s ++ "..." else s.

Definition class_name (n : tnode) : string :=
  match n with
  | Table _ => "Table" | Column _ => "Column" | Label _ _ => "Label"
  | Desc _ => "UnaryExpression"
  | Select _ | SelectFrom _ => "Select" | MetaData => "MetaData"
  | TNull => "Null" | TFalse => "False_" | TTrue => "True_"
  | TColumnClause _ _ => "ColumnClause" | TTextClause _ => "TextClause"
  | TTextualLabelReference _ => "_textual_label_reference"
  | TLabelReference _ => "_label_reference"
  | TClauseList _ => "ClauseList" | TBindParameter _ _ _ _ => "BindParameter"
  | TOffsetLimitParam _ _ _ => "_OffsetLimitParam" | TTuple _ => "Tuple"
  | ScalarSelect _ => "ScalarSelect" | Subquery _ => "Subquery"
  | TextualSelect _ => "TextualSelect" | Alias _ _ => "Alias"
  | Grouping _ _ => "Grouping" | Annotated _ _ => "Annotated"
  | ExpandingTypes _ _ => "BindParameter"
  end.

(** [repr(v)]; strings are quoted as Python does when they contain no
    quote, backslash or control character. *)
Fixpoint trepr (v : pyval tnode) : string :=
  match v with
  | PNone => "None"
  | PBool true => "True"
  | PBool false => "False"
  | PInt z => str_int z
  | PFloat t => t
  | PStr s | PTruncLabel s => "'" ++ s ++ "'"
  | PList items =>
      "[" ++ (fix commas (l : list (pyval tnode)) : string :=
                match l with
                | [] => ""
                | x :: rest =>
                    (trepr x ++ match rest with
                                | [] => ""
                                | _ => ", " ++ commas rest
                                end)%string
                end) items ++ "]"
  | PNode n => "<" ++ class_name n ++ " object>"
  | PHook _ _ => "<InstrumentedAttribute object>"
  | PObj o => "<" ++ obj_name o ++ " object>"
  end.

Definition trole_name (r : role) : string :=
  match r with
  | ExpressionElementRole | LabeledColumnExprRole => "SQL expression element"
  | BinaryElementRole => "SQL expression element or literal value"
  | InElementRole =>
      "IN expression list, SELECT construct, or bound parameter object"
  | WhereHavingRole => "SQL expression for WHERE/HAVING role"
  | StatementOptionRole => "statement sub-expression element"
  | ColumnArgumentRole => "Column expression"
  | ColumnArgumentOrKeyRole => "Column expression or string key"
  | ByOfRole => "GROUP BY / OF / etc. expression"
  | OrderByRole => "ORDER BY expression"
  | DMLColumnRole => "SET/VALUES column expression or string key"
  | ConstExprRole => "Constant True/False/None expression"
  | TruncatedLabelRole => "String SQL identifier"
  | DDLExpressionRole => "SQL expression element for DDL constraint"
  | DDLConstraintColumnRole =>
      "String column name or column object for DDL constraint"
  | LimitOffsetRole => "SQL expression for LIMIT / OFFSET"
  | ColumnsClauseRole => "Column expression or FROM clause"
  | ReturnsRowsRole | HasCTERole => "Row returning expression"
  | StatementRole => "Executable SQL or text() construct"
  | CoerceTextStatementRole =>
      "Executable SQL, text() construct, or string statement"
  | SelectStatementRole => "SELECT construct or equivalent text() construct"
  | FromClauseRole | StrictFromClauseRole | AnonymizedFromClauseRole =>
      "FROM expression, such as a Table or alias() object"
  | DMLSelectRole => "SELECT statement or equivalent textual object"
  | CompoundElementRole =>
      "SELECT construct for inclusion in a UNION or other set construct"
  end.

(** The role classes that derive from [roles.UsesInspection]: the
    columns-clause role and the FROM-clause roles under it. *)
Definition tuses_inspection (r : role) : bool :=
  existsb (role_eqb ColumnsClauseRole) (ancestors 4 r).

#[export] Instance elements : Elements := {|
  node := tnode;
  sqltype := ttype;
  role_name := trole_name;
  uses_inspection := tuses_inspection;
  TextClause_in_role := fun r => tinstance_of r (TTextClause "");
  instance_of := tinstance_of;
  is_ColumnOperators := fun n => tinstance_of ColumnArgumentRole n;
  is_Alias := fun n => match n with Alias _ _ => true | _ => false end;
  is_ClauseList :=
    fun n => match unwrapped n with TClauseList _ => true | _ => false end;
  is_BindParameter :=
    fun n => match unwrapped n with
             | TBindParameter _ _ _ _ | TOffsetLimitParam _ _ _ => true
             | _ => false
             end;
  is_Tuple := fun n => match n with TTuple _ => true | _ => false end;
  _is_select_statement := tis_select_statement;
  _is_from_clause := tis_from_clause;
  _is_text_clause :=
    fun n => match n with TTextClause _ => true | _ => false end;
  _order_by_label_element := tlabel_element;
  original :=
    fun n => match n with Alias e _ | Subquery e => e | _ => n end;
  key := fun n => match n with
                  | Column name | Label name _ => PStr name
                  | TColumnClause text _ => PStr text
                  | _ => PNone
                  end;
  clauses := tclauses;
  expanding :=
    fun n => match unwrapped n with
             | TBindParameter _ _ _ e => e
             | _ => false
             end;
  type_isnull :=
    fun n => match ttype_of n with NullType => true | _ => false end;
  type_of := ttype_of;
  tuple_types := fun n => match n with TTuple ts => ts | _ => [] end;
  Null := TNull;
  False_ := TFalse;
  True_ := TTrue;
  ColumnClause := TColumnClause;
  TextClause := TTextClause;
  _textual_label_reference := TTextualLabelReference;
  _label_reference := TLabelReference;
  ClauseList := TClauseList;
  BindParameter := tBindParameter;
  _OffsetLimitParam := TOffsetLimitParam;
  _truncated_label := fun v => PTruncLabel (py_str v);
  scalar_subquery := ScalarSelect;
  subquery := Subquery;
  select := SelectFrom;
  columns := TextualSelect;
  alias := Alias;
  label_None := Label "";
  self_group := Grouping;
  _annotate_in_ops := Annotated;
  _clone := fun n => n;
  set_type := tset_type;
  _with_expanding_in_types := ExpandingTypes;
  _bind_param :=
    fun expr op v type_ =>
      tBindParameter None v
        (match type_ with Some t => Some t | None => Some (ttype_of expr) end);
  inspect := tinspect;
  ellipses_string := tellipses_string;
  asint := tasint;
  repr := trepr
|}.

(** The [in_ops] entry of a node's annotations, as negation reads it. *)
Definition in_ops_of (n : tnode) : option (operator * operator) :=
  match n with Annotated _ ops => Some ops | _ => None end.

(** The options of [expr.in_(...)] and [expr.notin_(...)] on a column. *)
Definition kw_in (op : operator) : kwargs :=
  {| kw_argname := None; kw_name := None; kw_type_ := None;
     kw_bindparam_type := None; kw_expr := Some (Column "x");
     kw_operator := Some op; kw_as_key := None; kw_flat := None;
     kw_allow_select := None; kw_other := [] |}.

(** The options of [_offset_or_limit_clause]. *)
Definition kw_limit : kwargs :=
  {| kw_argname := None; kw_name := Some None; kw_type_ := Some None;
     kw_bindparam_type := None; kw_expr := None; kw_operator := None;
     kw_as_key := None; kw_flat := None; kw_allow_select := None;
     kw_other := [] |}.

Definition kw_allow_select_true : kwargs :=
  {| kw_argname := None; kw_name := None; kw_type_ := None;
     kw_bindparam_type := None; kw_expr := None; kw_operator := None;
     kw_as_key := None; kw_flat := None; kw_allow_select := Some true;
     kw_other := [] |}.

(** The columns met when a node is traversed. *)
Fixpoint tcolumn_nodes (n : tnode) : list tnode :=
  match n with
  | Column _ | TColumnClause _ _ => [n]
  | Label _ e | Desc e | TLabelReference e | ScalarSelect e | Grouping e _
  | Annotated e _ | ExpandingTypes e _ => tcolumn_nodes e
  | _ => []
  end.

Definition kw_as_key_true : kwargs :=
  {| kw_argname := None; kw_name := None; kw_type_ := None;
     kw_bindparam_type := None; kw_expr := None; kw_operator := None;
     kw_as_key := Some true; kw_flat := None; kw_allow_select := None;
     kw_other := [] |}.

Definition plain_object : pyval tnode :=
  PObj {| obj_name := "object"; obj_visitable := false;
          obj_column_operators := false |}.

Definition engine_object : pyval tnode :=
  PObj {| obj_name := "Engine"; obj_visitable := false;
          obj_column_operators := false |}.

End Model.

(** * Properties of the engine *)

Unset Implicit Arguments.

Section Properties.

Context {E : Elements}.

Abbreviation value := (pyval node).

(** ** The monad *)

Lemma bind_ret {A B} (a : A) (f : A -> M B) : bind (ret a) f = f a.
Proof. unfold bind, ret. destruct (f a) as [log o]. reflexivity. Qed.

Lemma bind_raise {A B} (e : exn) (f : A -> M B) : bind (raise e) f = raise e.
Proof. reflexivity. Qed.

Lemma bind_emit {B} (ev : event) (m : M B) :
  bind (emit ev) (fun _ => m) = (ev :: fst m, snd m).
Proof. unfold bind, emit. destruct m as [log o]. reflexivity. Qed.


Lemma invocations_app l1 l2 :
  invocations (l1 ++ l2) = invocations l1 ++ invocations l2.
Proof. unfold invocations. apply flat_map_app. Qed.

Lemma notices_app l1 l2 : notices (l1 ++ l2) = notices l1 ++ notices l2.
Proof. unfold notices. apply flat_map_app. Qed.

(** ** The unwrap loop *)

Lemma unwrap_not_hook (v : value) : has_hook v = false -> unwrap v = (v, false).
Proof. destruct v; simpl; intros H; try reflexivity; discriminate. Qed.

Lemma unwrap_reaches_node (v : value) (n : node) :
  resolves_to v n -> is_node v = false -> snd (unwrap v) = true.
Proof.
  unfold resolves_to. destruct v; simpl; intros H Hn;
    try discriminate; reflexivity.
Qed.

(** The loop goes through every hook of a chain, down to the value
    behind the last one. *)
Lemma unwrap_hook_chain (hooks : list bool) (w : value) :
  has_hook w = false ->
  unwrap (hook_chain hooks w)
  = (w, match hooks with [] => false | _ :: _ => true end).
Proof.
  intros Hw. induction hooks as [|c hooks IH]; simpl.
  - now apply unwrap_not_hook.
  - now rewrite IH.
Qed.

Lemma hook_chain_resolves (hooks : list bool) (n : node) :
  resolves_to (hook_chain hooks (PNode n)) n.
Proof.
  unfold resolves_to. now rewrite unwrap_hook_chain.
Qed.

Lemma hook_chain_has_hook (hooks : list bool) (w : value) :
  hooks <> [] -> has_hook (hook_chain hooks w) = true.
Proof. destruct hooks; [congruence|reflexivity]. Qed.

(** A value with a conversion hook resolves to the end of its hook chain,
    without any call to the rule set. *)
Lemma RoleImpl_resolve_hooked (r : role) (v : value) (kw : kwargs) :
  r <> TruncatedLabelRole -> has_hook v = true ->
  _resolve_for_clause_element r v kw = ret (fst (unwrap v)).
Proof.
  intros Hr Hhook.
  assert (H : _resolve_for_clause_element r v kw
              = RoleImpl_resolve_for_clause_element r (_literal_coercion r) v kw)
    by (destruct r; try reflexivity; congruence).
  rewrite H. unfold RoleImpl_resolve_for_clause_element.
  destruct v; try discriminate. simpl. reflexivity.
Qed.

(** A value that is a node, or a hook chain ending in one, resolves to
    that node. *)
Lemma resolution_of_node (r : role) (v : value) (n : node) (kw : kwargs) :
  r <> TruncatedLabelRole ->
  resolves_to v n ->
  (if negb (is_node v) then _resolve_for_clause_element r v kw else ret v)
  = ret (PNode n).
Proof.
  intros Hr Hres. unfold resolves_to in Hres.
  destruct v; simpl in *; try discriminate.
  - now rewrite Hres.
  - rewrite (RoleImpl_resolve_hooked r (PHook colops v) kw Hr eq_refl).
    simpl. now rewrite Hres.
Qed.

(** The post-coercion functions call neither coercion. *)
Lemma post_coercion_calls_no_coercion (r : role) post (n : node) (kw : kwargs) :
  _post_coercion r = Some post -> calls_no_coercion (post n kw).
Proof.
  unfold calls_no_coercion.
  destruct r; simpl; intros H; inversion H; subst; clear H.
  - unfold BinaryElementImpl_post_coercion.
    destruct (kw_expr kw); [destruct (_ && _)|]; reflexivity.
  - unfold InElementImpl_post_coercion.
    destruct (kw_expr kw); [destruct (kw_operator kw)|]; try reflexivity.
    destruct (_is_select_statement n); [reflexivity|].
    destruct (is_ClauseList n).
    + destruct (_ =? _)%nat; [destruct (is_in_op o)|]; reflexivity.
    + destruct (_ && _); [destruct (is_Tuple n0)|]; reflexivity.
  - unfold OrderByImpl_post_coercion.
    destruct (only_keywords [] kw); [destruct (_ && _)|]; reflexivity.
  - unfold DMLColumnImpl_post_coercion.
    destruct (only_keywords _ kw); [destruct (get_as_key kw)|]; reflexivity.
  - reflexivity.
Qed.

(** What [expect] does once [resolved] is a node the role accepts. *)
Lemma expect_accepted (r : role) (v : value) (n : node) (kw : kwargs) :
  (if negb (is_node v) then _resolve_for_clause_element r v kw else ret v)
  = ret (PNode n) ->
  instance_of r n = true ->
  expect r v kw = match _post_coercion r with
                  | Some post => post n kw
                  | None => ret (PNode n)
                  end.
Proof.
  intros Hres Hin. unfold expect. rewrite Hres, bind_ret. simpl.
  rewrite Hin. destruct (_post_coercion r); reflexivity.
Qed.

(** What [expect] does once [resolved] is a node the role does not accept. *)
Lemma expect_rejected (r : role) (v : value) (n : node) (kw : kwargs) :
  (if negb (is_node v) then _resolve_for_clause_element r v kw else ret v)
  = ret (PNode n) ->
  instance_of r n = false ->
  expect r v kw = _implicit_coercions r v (PNode n) kw.
Proof.
  intros Hres Hin. unfold expect. rewrite Hres, bind_ret. simpl.
  now rewrite Hin.
Qed.

(** ** C1: the fast path *)


(** ** C2: the inspection step *)

Lemma RoleImpl_resolve_unhooked (r : role) (v : value) (kw : kwargs) :
  r <> TruncatedLabelRole -> has_hook v = false ->
  _resolve_for_clause_element r v kw
  = if uses_inspection r then
      match inspect v with
      | Some (Some clause) => ret clause
      | Some None => _raise_for_expected r v (get_argname kw)
      | None => _literal_coercion r v (with_argname (get_argname kw) kw)
      end
    else _literal_coercion r v (with_argname (get_argname kw) kw).
Proof.
  intros Hr Hhook.
  assert (H : _resolve_for_clause_element r v kw
              = RoleImpl_resolve_for_clause_element r (_literal_coercion r) v kw)
    by (destruct r; try reflexivity; congruence).
  rewrite H. unfold RoleImpl_resolve_for_clause_element.
  rewrite (unwrap_not_hook v Hhook). simpl.
  destruct (uses_inspection r); [|reflexivity].
  destruct (inspect v) as [[clause|]|]; reflexivity.
Qed.

Lemma literal_coercion_is_logged (r : role) (v : value) (kw : kwargs) :
  exists log, fst (_literal_coercion r v kw) = Invoked LiteralCoercion r :: log.
Proof.
  unfold _literal_coercion. rewrite bind_emit. simpl. eauto.
Qed.

Lemma bind_log_prefix {A B} (m : M A) (f : A -> M B) :
  exists log, fst (bind m f) = fst m ++ log.
Proof.
  destruct m as [l [a|e]]; simpl.
  - destruct (f a) as [l' o]. simpl. eauto.
  - exists []. now rewrite app_nil_r.
Qed.

(** C2 (amended).  For a role that opts into external inspection (and
    resolves through [RoleImpl]) and a value that is not a node and has no
    conversion hook: when the inspection facility declines, resolution is
    the role's literal coercion, which [expect] calls first; when it
    returns a descriptor without a conversion hook, [expect] raises the
    role's expected-error at once and never calls the literal coercion;
    when the descriptor has a hook, its result is the resolved value. *)
Theorem inspection_step (r : role) (v : value) (kw : kwargs) :
  uses_inspection r = true ->
  r <> TruncatedLabelRole ->
  is_node v = false ->
  has_hook v = false ->
  (inspect v = None ->
     _resolve_for_clause_element r v kw
     = _literal_coercion r v (with_argname (get_argname kw) kw)
     /\ exists log,
          fst (expect r v kw) = Invoked LiteralCoercion r :: log)
  /\ (inspect v = Some None ->
     expect r v kw
     = ([], Raise (ArgumentError (expected_message r (get_argname kw) v))))
  /\ (forall w, inspect v = Some (Some w) ->
     _resolve_for_clause_element r v kw = ret w).
Proof.
  intros Huses Hr Hnode Hhook.
  pose proof (RoleImpl_resolve_unhooked r v kw Hr Hhook) as Hres.
  rewrite Huses in Hres.
  repeat split.
  - rewrite Hres, H. reflexivity.
  - unfold expect. rewrite Hnode. simpl. rewrite Hres, H.
    destruct (literal_coercion_is_logged r v (with_argname (get_argname kw) kw))
      as [l Hl].
    destruct (bind_log_prefix
                (_literal_coercion r v (with_argname (get_argname kw) kw))
                (fun resolved =>
                   if in_role r resolved
                   then match _post_coercion r, resolved with
                        | Some post, PNode n => post n kw
                        | _, _ => ret resolved
                        end
                   else _implicit_coercions r v resolved kw)) as [l' Hl'].
    rewrite Hl'. rewrite Hl. simpl. eauto.
  - intros Hinsp. unfold expect. rewrite Hnode. simpl.
    rewrite Hres, Hinsp. reflexivity.
  - intros w Hinsp. rewrite Hres, Hinsp. reflexivity.
Qed.

(** ** C3: a SELECT where a strict FROM clause is required *)

(** C3.  For the strict FROM-clause role, when the resolved value is a full
    SELECT statement (which the role does not accept): with
    [allow_select] not passed, or passed as [False], the call raises the
    role's [ArgumentError]; with [allow_select=True] it returns the SELECT
    wrapped by [subquery()] and emits exactly one deprecation notice. *)
Theorem strict_from_clause_select (v : value) (n : node) (kw : kwargs) :
  resolves_to v n ->
  _is_select_statement n = true ->
  instance_of StrictFromClauseRole n = false ->
  (kw_allow_select kw = None \/ kw_allow_select kw = Some false ->
     expect StrictFromClauseRole v kw
     = ([Invoked ImplicitCoercions StrictFromClauseRole],
        Raise (ArgumentError
                 (expected_message StrictFromClauseRole (get_argname kw) v))))
  /\ (kw_allow_select kw = Some true ->
     expect StrictFromClauseRole v kw
     = ([Invoked ImplicitCoercions StrictFromClauseRole;
         Deprecated subquery_notice],
        Return (PNode (subquery n)))
     /\ notices (fst (expect StrictFromClauseRole v kw)) = [subquery_notice]).
Proof.
  intros Hres Hsel Hin.
  assert (Hexp : expect StrictFromClauseRole v kw
                 = _implicit_coercions StrictFromClauseRole v (PNode n) kw).
  { apply expect_rejected; [|assumption].
    apply resolution_of_node; [discriminate|assumption]. }
  rewrite Hexp. unfold _implicit_coercions.
  rewrite bind_emit. unfold StrictFromClauseImpl_implicit_coercions.
  rewrite Hsel. unfold get_allow_select. simpl.
  split.
  - intros [Hallow|Hallow]; rewrite Hallow; reflexivity.
  - intros Hallow. rewrite Hallow. simpl. auto.
Qed.

(** ** C4: the empty IN list *)

Lemma mapM_length {A B} (f : A -> M B) (l : list A) log (ys : list B) :
  mapM f l = (log, Return ys) -> length ys = length l.
Proof.
  revert log ys. induction l as [|x xs IH]; simpl; intros log ys H.
  - inversion H. reflexivity.
  - destruct (f x) as [l1 [y|e]]; simpl in H; [|discriminate].
    destruct (mapM f xs) as [l2 [ys'|e]] eqn:Hxs; simpl in H; [|discriminate].
    inversion H; subst. simpl. f_equal. eapply IH. reflexivity.
Qed.

(** Resolution of a list for the IN role is its literal coercion. *)
Lemma in_role_resolves_list (items : list value) (kw : kwargs) :
  (uses_inspection InElementRole = true -> inspect (PList items) = None) ->
  _resolve_for_clause_element InElementRole (PList items) kw
  = _literal_coercion InElementRole (PList items)
      (with_argname (get_argname kw) kw).
Proof.
  intros Hinsp.
  rewrite RoleImpl_resolve_unhooked by (discriminate || reflexivity).
  destruct (uses_inspection InElementRole); [|reflexivity].
  now rewrite Hinsp.
Qed.

(** C4.  For the IN role, an empty iterable yields the clause list grouped
    against an empty-IN operator and annotated with the pair (that
    operator, its complement): (empty-in, empty-not-in) when the comparison
    operator is [in_op], and (empty-not-in, empty-in) otherwise, so for
    not-in.  A non-empty iterable whose elements are accepted yields the
    clause list grouped against the comparison operator, with no such
    annotation, hence a different node. *)
Theorem in_role_empty_marker (kw : kwargs) (expr : node) (op : operator)
    (in_ops_of : node -> option (operator * operator)) :
  kw_expr kw = Some expr ->
  kw_operator kw = Some op ->
  (uses_inspection InElementRole = true ->
   forall items, inspect (PList items) = None) ->
  (forall args, instance_of InElementRole (ClauseList args) = true) ->
  (forall args, _is_select_statement (ClauseList args) = false) ->
  (forall args, is_ClauseList (ClauseList args) = true) ->
  (forall args, length (clauses (ClauseList args)) = length args) ->
  (forall n ops, in_ops_of (_annotate_in_ops n ops) = Some ops) ->
  (forall args against,
     in_ops_of (self_group (ClauseList args) against) = None) ->
  let marker := if is_in_op op then (empty_in_op, empty_notin_op)
                else (empty_notin_op, empty_in_op) in
  let empty :=
    _annotate_in_ops (self_group (ClauseList []) (fst marker)) marker in
  expect InElementRole (PList []) kw
  = ([Invoked LiteralCoercion InElementRole], Return (PNode empty))
  /\ in_ops_of empty = Some marker
  /\ (op = in_op -> marker = (empty_in_op, empty_notin_op))
  /\ (op = notin_op -> marker = (empty_notin_op, empty_in_op))
  /\ forall items args log,
       items <> [] ->
       mapM (in_element InElementRole (PList items) expr op
               (without_expr_operator (with_argname (get_argname kw) kw)))
            items = (log, Return args) ->
       expect InElementRole (PList items) kw
       = (Invoked LiteralCoercion InElementRole :: log,
          Return (PNode (self_group (ClauseList args) op)))
       /\ in_ops_of (self_group (ClauseList args) op) = None
       /\ self_group (ClauseList args) op <> empty.
Proof.
  intros Hexpr Hop Hinsp Hrole Hsel Hcl Hlen Hann Hgrp marker empty.
  assert (Hempty_ops : in_ops_of empty = Some marker) by apply Hann.
  split; [|split; [assumption|split; [|split]]].
  - unfold expect. simpl is_node. simpl negb. cbv iota.
    rewrite in_role_resolves_list by (intros H; apply Hinsp, H).
    unfold _literal_coercion. rewrite bind_emit.
    unfold InElementImpl_literal_coercion. simpl kw_expr. simpl kw_operator.
    rewrite Hexpr, Hop. simpl mapM. rewrite bind_ret.
    unfold bind at 1. simpl. rewrite Hrole.
    unfold InElementImpl_post_coercion. rewrite Hexpr, Hop, Hsel, Hcl, Hlen.
    simpl. subst empty marker. destruct (is_in_op op); reflexivity.
  - intros ->. reflexivity.
  - intros ->. reflexivity.
  - intros items args log Hne Hmap.
    assert (Hnone : in_ops_of (self_group (ClauseList args) op) = None)
      by apply Hgrp.
    split; [|split; [assumption|]].
    + unfold expect. simpl is_node. simpl negb. cbv iota.
      rewrite in_role_resolves_list by (intros H; apply Hinsp, H).
      unfold _literal_coercion. rewrite bind_emit.
      unfold InElementImpl_literal_coercion. simpl kw_expr. simpl kw_operator.
      rewrite Hexpr, Hop. rewrite Hmap. simpl.
      rewrite Hrole. unfold InElementImpl_post_coercion.
      rewrite Hexpr, Hop, Hsel, Hcl, Hlen.
      rewrite (mapM_length _ _ _ _ Hmap).
      destruct items as [|x xs]; [congruence|]. simpl.
      now rewrite !app_nil_r.
    + intros Heq. rewrite Heq in Hnone. congruence.
Qed.

(** ** C5: applying [expect] twice *)


(** ** C6: literals of the columns clause *)

Lemma columns_clause_literal (v : value) (n : node) (kw : kwargs) :
  (uses_inspection ColumnsClauseRole = true -> inspect v = None) ->
  is_node v = false ->
  has_hook v = false ->
  _CoerceLiterals_literal_coercion ColumnsClauseRole v
    (with_argname (get_argname kw) kw) = ret (PNode n) ->
  instance_of ColumnsClauseRole n = true ->
  expect ColumnsClauseRole v kw
  = ([Invoked LiteralCoercion ColumnsClauseRole], Return (PNode n)).
Proof.
  intros Hinsp Hnode Hhook Hlit Hin.
  unfold expect. rewrite Hnode. simpl negb. cbv iota.
  rewrite RoleImpl_resolve_unhooked by (discriminate || assumption).
  assert (Hres : (if uses_inspection ColumnsClauseRole
                  then match inspect v with
                       | Some (Some clause) => ret clause
                       | Some None =>
                           _raise_for_expected ColumnsClauseRole v
                             (get_argname kw)
                       | None =>
                           _literal_coercion ColumnsClauseRole v
                             (with_argname (get_argname kw) kw)
                       end
                  else _literal_coercion ColumnsClauseRole v
                         (with_argname (get_argname kw) kw))
                 = _literal_coercion ColumnsClauseRole v
                     (with_argname (get_argname kw) kw)).
  { destruct (uses_inspection ColumnsClauseRole); [|reflexivity].
    now rewrite Hinsp. }
  rewrite Hres. unfold _literal_coercion. rewrite bind_emit, Hlit.
  simpl. now rewrite Hin.
Qed.

(** C6.  For the columns-clause role, the string "*" becomes the wildcard
    literal column, the number 5 becomes the literal column whose text is
    "5", and [None] becomes the null node. *)
Theorem columns_clause_round_trip (kw : kwargs) :
  (uses_inspection ColumnsClauseRole = true ->
   inspect (PStr "*") = None /\ inspect (PInt 5) = None
   /\ inspect PNone = None) ->
  (forall text, instance_of ColumnsClauseRole (ColumnClause text true) = true) ->
  instance_of ColumnsClauseRole Null = true ->
  expect ColumnsClauseRole (PStr "*") kw
  = ([Invoked LiteralCoercion ColumnsClauseRole],
     Return (PNode (ColumnClause "*" true)))
  /\ expect ColumnsClauseRole (PInt 5) kw
     = ([Invoked LiteralCoercion ColumnsClauseRole],
        Return (PNode (ColumnClause "5" true)))
  /\ expect ColumnsClauseRole PNone kw
     = ([Invoked LiteralCoercion ColumnsClauseRole], Return (PNode Null)).
Proof.
  intros Hinsp Hcol Hnull.
  repeat split; apply columns_clause_literal;
    try reflexivity; try apply Hcol; try apply Hnull;
    intros Hu; apply Hinsp in Hu; tauto.
Qed.

(** ** C7: roles that refuse text *)

(** C7.  For every role whose rule set has the no-text-coercion policy,
    [expect] on a string raises [ArgumentError], whatever the options
    (so whether [argname] is passed or not); the message is the
    text-rejection one when the role is a textual one and the role's
    expected-error otherwise. *)
Theorem no_text_coercion_rejects_strings (r : role) (v : value)
    (kw : kwargs) :
  no_text_coercion_policy r = true ->
  is_string v = true ->
  (uses_inspection r = true -> forall w, inspect v <> Some (Some w)) ->
  exists log msg,
    expect r v kw = (log, Raise (ArgumentError msg))
    /\ (msg = no_text_message (str_content v) (get_argname kw)
        \/ msg = expected_message r (get_argname kw) v).
Proof.
  intros Hpol Hstr Hinsp.
  assert (Hnode : is_node v = false) by (destruct v; try discriminate; reflexivity).
  assert (Hhook : has_hook v = false) by (destruct v; try discriminate; reflexivity).
  assert (Hr : r <> TruncatedLabelRole) by (intros ->; discriminate).
  assert (Hlit : _literal_coercion r v (with_argname (get_argname kw) kw)
                 = (emit (Invoked LiteralCoercion r) ;;;
                    _NoTextCoercion_literal_coercion r v
                      (with_argname (get_argname kw) kw)))
    by (destruct r; try discriminate; reflexivity).
  unfold expect. rewrite Hnode. simpl negb. cbv iota.
  rewrite (RoleImpl_resolve_unhooked r v kw Hr Hhook).
  assert (Hraise : exists log msg,
             _literal_coercion r v (with_argname (get_argname kw) kw)
             = (log, Raise (ArgumentError msg))
             /\ (msg = no_text_message (str_content v) (get_argname kw)
                 \/ msg = expected_message r (get_argname kw) v)).
  { rewrite Hlit, bind_emit. unfold _NoTextCoercion_literal_coercion.
    rewrite Hstr. simpl andb.
    destruct (TextClause_in_role r); simpl; eauto. }
  destruct Hraise as (log & msg & Hl & Hmsg).
  destruct (uses_inspection r) eqn:Hu.
  - destruct (inspect v) as [[w|]|] eqn:Hi.
    + exfalso. exact (Hinsp eq_refl w eq_refl).
    + exists [], (expected_message r (get_argname kw) v). split; [reflexivity|tauto].
    + exists log, msg. rewrite Hl. split; [reflexivity|assumption].
  - exists log, msg. rewrite Hl. split; [reflexivity|assumption].
Qed.

(** ** C9: the ordering role *)

(** C9 (amended).  For the ordering role, called without options, a
    resolved node that the role accepts and that carries an order-by-label
    element is returned wrapped in a label reference to the resolved
    expression itself, whatever its order-by-label element is; one without
    that element is returned unchanged. *)
Theorem order_by_label_reference (v : value) (n : node) (kw : kwargs) :
  resolves_to v n ->
  instance_of OrderByRole n = true ->
  only_keywords [] kw = true ->
  (forall l, _order_by_label_element n = Some l ->
     expect OrderByRole v kw = ([], Return (PNode (_label_reference n))))
  /\ (_order_by_label_element n = None ->
     expect OrderByRole v kw = ([], Return (PNode n))).
Proof.
  intros Hres Hin Hkw.
  assert (Hexp : expect OrderByRole v kw = OrderByImpl_post_coercion n kw).
  { rewrite (expect_accepted OrderByRole v n kw); [reflexivity| |assumption].
    apply resolution_of_node; [discriminate|assumption]. }
  rewrite Hexp. unfold OrderByImpl_post_coercion. rewrite Hkw, Hin.
  split.
  - intros l Hl. now rewrite Hl.
  - intros Hl. now rewrite Hl.
Qed.

(** ** C10: [None] as a limit or offset *)

(** C10 (amended).  For the limit/offset role: [None] passed as the value
    comes back as [None], through the literal and then the implicit
    coercion and with no error, when the call passes the [name] and
    [type_] options that the literal coercion requires, and raises
    [TypeError] when one of them is missing; a chain of conversion hooks
    that ends in [None] comes back as [None] through the implicit
    coercion, whatever the options; and the implicit coercion raises the
    role's [ArgumentError] for every other resolved value, in particular
    for every resolved node that the role does not accept. *)
Theorem limit_offset_none (kw : kwargs) :
  (is_some (kw_name kw) = true ->
   is_some (kw_type_ kw) = true ->
   (uses_inspection LimitOffsetRole = true -> inspect PNone = None) ->
   expect LimitOffsetRole PNone kw
   = ([Invoked LiteralCoercion LimitOffsetRole;
       Invoked ImplicitCoercions LimitOffsetRole], Return PNone))
  /\ (kw_name kw = None \/ kw_type_ kw = None ->
      (uses_inspection LimitOffsetRole = true -> inspect PNone = None) ->
      expect LimitOffsetRole PNone kw
      = ([Invoked LiteralCoercion LimitOffsetRole], Raise TypeError))
  /\ (forall hooks, hooks <> [] ->
      expect LimitOffsetRole (hook_chain hooks PNone) kw
      = ([Invoked ImplicitCoercions LimitOffsetRole], Return PNone))
  /\ (forall element resolved, resolved <> PNone ->
      _implicit_coercions LimitOffsetRole element resolved kw
      = ([Invoked ImplicitCoercions LimitOffsetRole],
         Raise (ArgumentError
                  (expected_message LimitOffsetRole (get_argname kw) element))))
  /\ (forall v n, resolves_to v n ->
      instance_of LimitOffsetRole n = false ->
      expect LimitOffsetRole v kw
      = ([Invoked ImplicitCoercions LimitOffsetRole],
         Raise (ArgumentError
                  (expected_message LimitOffsetRole (get_argname kw) v)))).
Proof.
  assert (Himp : forall element resolved, resolved <> PNone ->
            _implicit_coercions LimitOffsetRole element resolved kw
            = ([Invoked ImplicitCoercions LimitOffsetRole],
               Raise (ArgumentError
                        (expected_message LimitOffsetRole (get_argname kw)
                           element)))).
  { intros element resolved Hne. unfold _implicit_coercions.
    rewrite bind_emit. unfold LimitOffsetImpl_implicit_coercions.
    destruct resolved; try reflexivity. congruence. }
  assert (Hlit : (uses_inspection LimitOffsetRole = true ->
                  inspect PNone = None) ->
            expect LimitOffsetRole PNone kw
            = (resolved <- _literal_coercion LimitOffsetRole PNone
                             (with_argname (get_argname kw) kw) ;;
               if in_role LimitOffsetRole resolved
               then match _post_coercion LimitOffsetRole, resolved with
                    | Some post, PNode n => post n kw
                    | _, _ => ret resolved
                    end
               else _implicit_coercions LimitOffsetRole PNone resolved kw)).
  { intros Hinsp. unfold expect. simpl is_node. simpl negb. cbv iota.
    rewrite RoleImpl_resolve_unhooked by (discriminate || reflexivity).
    destruct (uses_inspection LimitOffsetRole); [|reflexivity].
    now rewrite Hinsp. }
  split; [|split; [|split; [|split]]].
  - intros Hname Htype Hinsp. rewrite (Hlit Hinsp).
    unfold _literal_coercion. rewrite bind_emit.
    unfold LimitOffsetImpl_literal_coercion. simpl kw_name. simpl kw_type_.
    destruct (kw_name kw); [|discriminate].
    destruct (kw_type_ kw); [|discriminate]. reflexivity.
  - intros Hmissing Hinsp. rewrite (Hlit Hinsp).
    unfold _literal_coercion. rewrite bind_emit.
    unfold LimitOffsetImpl_literal_coercion. simpl kw_name. simpl kw_type_.
    destruct Hmissing as [-> | ->]; [reflexivity|].
    destruct (kw_name kw); reflexivity.
  - intros hooks Hhooks. unfold expect.
    pose proof (hook_chain_has_hook hooks PNone Hhooks) as Hhook.
    assert (Hnode : is_node (hook_chain hooks PNone) = false)
      by (destruct hooks; [congruence|reflexivity]).
    rewrite Hnode. simpl negb. cbv iota.
    rewrite RoleImpl_resolve_hooked by (discriminate || assumption).
    rewrite unwrap_hook_chain by reflexivity. simpl fst.
    rewrite bind_ret. reflexivity.
  - exact Himp.
  - intros v n Hres Hin.
    rewrite (expect_rejected LimitOffsetRole v n kw); [|
      apply resolution_of_node; [discriminate|assumption] | assumption].
    apply Himp. discriminate.
Qed.

(** ** C8: the diagnostics *)








Lemma aei_weaken {A} (P Q : string -> Prop) (m : M A) :
  (forall msg, P msg -> Q msg) ->
  argument_errors_in P m -> argument_errors_in Q m.
Proof. intros HPQ Hm log msg H. apply HPQ. eapply Hm. eassumption. Qed.









End Properties.

(** * Further properties of the rule sets *)

Section Coverage.

Context {E : Elements}.

Abbreviation value := (pyval node).

(** ** The dispatcher *)

Lemma expect_steps (r : role) (v : value) (kw : kwargs) :
  expect r v kw
  = (resolved <- (if negb (is_node v)
                  then _resolve_for_clause_element r v kw
                  else ret v) ;;
     accept_or_coerce r v resolved kw).
Proof. reflexivity. Qed.

(** A value that is a node, or a hook chain ending in one, goes straight to
    step 4 with that node. *)
Lemma expect_of_resolved_node (r : role) (v : value) (n : node)
    (kw : kwargs) :
  r <> TruncatedLabelRole -> resolves_to v n ->
  expect r v kw = accept_or_coerce r v (PNode n) kw.
Proof.
  intros Hr Hres. rewrite expect_steps.
  rewrite (resolution_of_node r v n kw Hr Hres). now rewrite bind_ret.
Qed.

(** A value without hook that the inspection facility leaves alone goes
    through the literal coercion. *)
Lemma expect_of_literal (r : role) (v : value) (kw : kwargs) :
  r <> TruncatedLabelRole ->
  is_node v = false -> has_hook v = false -> inspection_declines r v ->
  expect r v kw
  = (resolved <- _literal_coercion r v (with_argname (get_argname kw) kw) ;;
     accept_or_coerce r v resolved kw).
Proof.
  intros Hr Hnode Hhook Hinsp. rewrite expect_steps, Hnode. simpl negb.
  cbv iota. rewrite (RoleImpl_resolve_unhooked r v kw Hr Hhook).
  unfold inspection_declines in Hinsp.
  destruct (uses_inspection r); [|reflexivity].
  now rewrite Hinsp.
Qed.

Lemma literal_coercion_steps (r : role) (v : value) (kw : kwargs)
    (body : M value) (k : value -> M value) :
  _literal_coercion r v kw = (emit (Invoked LiteralCoercion r) ;;; body) ->
  (resolved <- _literal_coercion r v kw ;; k resolved)
  = (Invoked LiteralCoercion r :: fst (resolved <- body ;; k resolved),
     snd (resolved <- body ;; k resolved)).
Proof.
  intros ->. rewrite bind_emit. destruct body as [l [a|e]]; simpl.
  - destruct (k a); reflexivity.
  - reflexivity.
Qed.

Lemma post_coercion_silent (r : role) post (n : node) (kw : kwargs) :
  _post_coercion r = Some post -> fst (post n kw) = [].
Proof.
  destruct r; simpl; intros H; inversion H; subst; clear H.
  - unfold BinaryElementImpl_post_coercion.
    destruct (kw_expr kw); [destruct (_ && _)|]; reflexivity.
  - unfold InElementImpl_post_coercion.
    destruct (kw_expr kw); [destruct (kw_operator kw)|]; try reflexivity.
    destruct (_is_select_statement n); [reflexivity|].
    destruct (is_ClauseList n).
    + destruct (_ =? _)%nat; [destruct (is_in_op o)|]; reflexivity.
    + destruct (_ && _); [destruct (is_Tuple n0)|]; reflexivity.
  - unfold OrderByImpl_post_coercion.
    destruct (only_keywords [] kw); [destruct (_ && _)|]; reflexivity.
  - unfold DMLColumnImpl_post_coercion.
    destruct (only_keywords _ kw); [destruct (get_as_key kw)|]; reflexivity.
  - reflexivity.
Qed.

(** X1.  Conversion hooks are transparent when the node behind them is
    accepted: for every role but the truncated-label one, a node of the
    role's accepted set wrapped in any number of hook-bearing objects
    gives what the node itself gives. *)
Theorem hook_chain_is_transparent (r : role) (hooks : list bool) (n : node)
    (kw : kwargs) :
  r <> TruncatedLabelRole ->
  instance_of r n = true ->
  expect r (hook_chain hooks (PNode n)) kw = expect r (PNode n) kw.
Proof.
  intros Hr Hin.
  rewrite (expect_of_resolved_node r (hook_chain hooks (PNode n)) n kw Hr
             (hook_chain_resolves hooks n)).
  rewrite (expect_of_resolved_node r (PNode n) n kw Hr eq_refl).
  unfold accept_or_coerce. simpl. now rewrite Hin.
Qed.

(** X2.  For the nine roles that keep [RoleImpl._implicit_coercions], a
    resolved node outside the accepted set is an error that names the
    value the caller passed (the hook-bearing object, not the node it
    converts to) and the [argname] option. *)
Theorem default_implicit_coercion_rejects (r : role) (v : value) (n : node)
    (kw : kwargs) :
  default_implicit_coercions r = true ->
  resolves_to v n ->
  instance_of r n = false ->
  expect r v kw
  = ([Invoked ImplicitCoercions r],
     Raise (ArgumentError (expected_message r (get_argname kw) v))).
Proof.
  intros Hdef Hres Hin.
  rewrite (expect_of_resolved_node r v n kw); [|intros ->; discriminate|assumption].
  unfold accept_or_coerce. simpl. rewrite Hin.
  destruct r; try discriminate; reflexivity.
Qed.

(** X3.  The string-key roles hand a string back as it is, whatever the
    options, so also through [expect_as_key]. *)
Theorem string_key_passes_through (r : role) (v : value) (kw : kwargs) :
  returns_string_key r = true ->
  is_string v = true ->
  inspection_declines r v ->
  expect r v kw
  = ([Invoked LiteralCoercion r; Invoked ImplicitCoercions r], Return v)
  /\ expect_as_key r v kw
     = ([Invoked LiteralCoercion r; Invoked ImplicitCoercions r], Return v).
Proof.
  intros Hkey Hstr Hinsp.
  assert (H : forall kw',
            expect r v kw'
            = ([Invoked LiteralCoercion r; Invoked ImplicitCoercions r],
               Return v)).
  { intros kw'. rewrite expect_of_literal;
      [|intros ->; discriminate
       |destruct v; try discriminate; reflexivity
       |destruct v; try discriminate; reflexivity
       |assumption].
    destruct r; try discriminate;
      destruct v; try discriminate; reflexivity. }
  split; [apply H|apply H].
Qed.

(** X4.  The string-key roles refuse every other value that is neither a
    node nor hook-bearing: a number, [None], a list, a plain object. *)
Theorem string_key_rejects_other_values (r : role) (v : value)
    (kw : kwargs) :
  returns_string_key r = true ->
  is_node v = false -> has_hook v = false -> is_string v = false ->
  inspection_declines r v ->
  expect r v kw
  = ([Invoked LiteralCoercion r; Invoked ImplicitCoercions r],
     Raise (ArgumentError (expected_message r (get_argname kw) v))).
Proof.
  intros Hkey Hnode Hhook Hstr Hinsp.
  rewrite expect_of_literal;
    [|intros ->; discriminate|assumption|assumption|assumption].
  destruct r; try discriminate;
    destruct v; try discriminate; reflexivity.
Qed.

Lemma only_as_key_with_as_key (kw : kwargs) :
  only_keywords [Kas_key] (with_as_key kw) = only_keywords [Kas_key] kw.
Proof.
  destruct kw as [a b c d e f g h i j]. unfold only_keywords. simpl.
  destruct a, b, c, d, e, f, g, h, i; reflexivity.
Qed.

Lemma no_keywords_no_as_key (kw : kwargs) :
  only_keywords [] kw = true ->
  only_keywords [Kas_key] kw = true /\ get_as_key kw = false.
Proof.
  destruct kw as [a b c d e f g h i j]. unfold only_keywords, get_as_key.
  simpl. destruct a, b, c, d, e, f, g, h, i, j; simpl;
    intros H; try discriminate; split; reflexivity.
Qed.

(** X5.  For the DML-column role and a node of its accepted set:
    [expect_as_key] returns the node's [key], a call without options
    returns the node, and any option other than [as_key] is a
    [TypeError]. *)
Theorem dml_column_as_key (n : node) (kw : kwargs) :
  instance_of DMLColumnRole n = true ->
  (only_keywords [Kas_key] kw = true ->
     expect_as_key DMLColumnRole (PNode n) kw = ([], Return (key n)))
  /\ (only_keywords [] kw = true ->
     expect DMLColumnRole (PNode n) kw = ([], Return (PNode n)))
  /\ (only_keywords [Kas_key] kw = false ->
     expect DMLColumnRole (PNode n) kw = ([], Raise TypeError)
     /\ expect_as_key DMLColumnRole (PNode n) kw = ([], Raise TypeError)).
Proof.
  intros Hin.
  assert (H : forall kw',
            expect DMLColumnRole (PNode n) kw'
            = DMLColumnImpl_post_coercion n kw').
  { intros kw'. apply (expect_accepted DMLColumnRole (PNode n) n kw' eq_refl Hin). }
  split; [intros Hk|split; [intros Hk|intros Hk; split]].
  - unfold expect_as_key. rewrite H. unfold DMLColumnImpl_post_coercion.
    rewrite only_as_key_with_as_key, Hk. reflexivity.
  - rewrite H. unfold DMLColumnImpl_post_coercion.
    destruct (no_keywords_no_as_key kw Hk) as [-> ->]. reflexivity.
  - rewrite H. unfold DMLColumnImpl_post_coercion. now rewrite Hk.
  - unfold expect_as_key. rewrite H. unfold DMLColumnImpl_post_coercion.
    now rewrite only_as_key_with_as_key, Hk.
Qed.

(** X6.  The column-coercion roles (expression element, binary element,
    WHERE/HAVING, BY/OF, ORDER BY) turn a resolved SELECT that they do not
    accept into its scalar subquery, with exactly one deprecation notice;
    an alias of a SELECT gives the scalar subquery of the aliased SELECT;
    any other node is the role's error.  No post-coercion follows. *)
Theorem column_coercions_of_select (r : role) (v : value) (n : node)
    (kw : kwargs) :
  column_coercions r = true ->
  resolves_to v n ->
  instance_of r n = false ->
  (_is_select_statement n = true ->
     expect r v kw
     = ([Invoked ImplicitCoercions r; Deprecated scalar_subquery_notice],
        Return (PNode (scalar_subquery n))))
  /\ (_is_select_statement n = false ->
      _is_from_clause n && is_Alias n && _is_select_statement (original n)
      = true ->
     expect r v kw
     = ([Invoked ImplicitCoercions r; Deprecated scalar_subquery_notice],
        Return (PNode (scalar_subquery (original n)))))
  /\ (_is_select_statement n = false ->
      _is_from_clause n && is_Alias n && _is_select_statement (original n)
      = false ->
     expect r v kw
     = ([Invoked ImplicitCoercions r],
        Raise (ArgumentError (expected_message r (get_argname kw) v)))).
Proof.
  intros Hcc Hres Hin.
  rewrite (expect_of_resolved_node r v n kw); [|intros ->; discriminate|assumption].
  unfold accept_or_coerce. simpl. rewrite Hin.
  assert (Himp : _implicit_coercions r v (PNode n) kw
                 = (emit (Invoked ImplicitCoercions r) ;;;
                    _ColumnCoercions_implicit_coercions r v (PNode n) kw))
    by (destruct r; try discriminate; reflexivity).
  rewrite Himp, bind_emit. unfold _ColumnCoercions_implicit_coercions.
  repeat split.
  - intros ->. reflexivity.
  - intros -> ->. reflexivity.
  - intros -> ->. reflexivity.
Qed.


(** ** Literal values *)

(** X7.  Only the columns-clause role promotes a number: each of the
    other literal-coercing roles (WHERE/HAVING, statement option, BY/OF,
    ORDER BY, DDL expression, text statement) refuses an [int] or a
    [float] with the role's error. *)
Theorem numbers_are_refused (r : role) (v : value) (kw : kwargs) :
  coerce_literals r = true ->
  r <> ColumnsClauseRole ->
  is_number v = true ->
  (forall b, v <> PBool b) ->
  inspection_declines r v ->
  expect r v kw
  = ([Invoked LiteralCoercion r],
     Raise (ArgumentError (expected_message r (get_argname kw) v))).
Proof.
  intros Hcl Hr Hnum Hbool Hinsp.
  rewrite expect_of_literal;
    [|intros ->; discriminate
     |destruct v; try discriminate; reflexivity
     |destruct v; try discriminate; reflexivity
     |assumption].
  destruct r; try discriminate; try congruence;
    destruct v; try discriminate; try (now elim (Hbool b)); reflexivity.
Qed.

(** X8.  The statement-option, DDL-expression and text-statement roles
    take any string as SQL text: the result is the text clause of that
    string. *)
Theorem strings_become_text (r : role) (v : value) (kw : kwargs) :
  r = StatementOptionRole \/ r = DDLExpressionRole
  \/ r = CoerceTextStatementRole ->
  is_string v = true ->
  inspection_declines r v ->
  instance_of r (TextClause (str_content v)) = true ->
  expect r v kw
  = ([Invoked LiteralCoercion r],
     Return (PNode (TextClause (str_content v)))).
Proof.
  intros Hr Hstr Hinsp Hin.
  rewrite expect_of_literal;
    [|destruct Hr as [->|[->| ->]]; discriminate
     |destruct v; try discriminate; reflexivity
     |destruct v; try discriminate; reflexivity
     |assumption].
  destruct Hr as [->|[->| ->]];
    destruct v; try discriminate; simpl in *;
    unfold _literal_coercion, _CoerceLiterals_literal_coercion;
    simpl; unfold accept_or_coerce, bind; simpl; rewrite Hin; reflexivity.
Qed.

(** X9.  The WHERE/HAVING role refuses every string, with the message
    that asks for an explicit [text()]. *)
Theorem where_refuses_text (v : value) (kw : kwargs) :
  is_string v = true ->
  inspection_declines WhereHavingRole v ->
  expect WhereHavingRole v kw
  = ([Invoked LiteralCoercion WhereHavingRole],
     Raise (ArgumentError
              (no_text_message (str_content v) (get_argname kw)))).
Proof.
  intros Hstr Hinsp.
  rewrite expect_of_literal;
    [|discriminate
     |destruct v; try discriminate; reflexivity
     |destruct v; try discriminate; reflexivity
     |assumption].
  destruct v; try discriminate; reflexivity.
Qed.

(** X10.  For the BY/OF role a string becomes a textual label
    reference. *)
Theorem by_of_text_is_label_reference (v : value) (kw : kwargs) :
  is_string v = true ->
  inspection_declines ByOfRole v ->
  instance_of ByOfRole (_textual_label_reference (str_content v)) = true ->
  expect ByOfRole v kw
  = ([Invoked LiteralCoercion ByOfRole],
     Return (PNode (_textual_label_reference (str_content v)))).
Proof.
  intros Hstr Hinsp Hin.
  rewrite expect_of_literal;
    [|discriminate
     |destruct v; try discriminate; reflexivity
     |destruct v; try discriminate; reflexivity
     |assumption].
  destruct v; try discriminate; simpl in *;
    unfold _literal_coercion, _CoerceLiterals_literal_coercion;
    simpl; unfold accept_or_coerce, bind; simpl; rewrite Hin; reflexivity.
Qed.






(** X13.  The constant role takes [None], [True] and [False] only: every
    other value that is neither a node nor hook-bearing, the integers 0
    and 1 included, is the role's error. *)
Theorem const_expr_takes_constants_only (v : value) (kw : kwargs) :
  is_node v = false -> has_hook v = false ->
  v <> PNone -> (forall b, v <> PBool b) ->
  inspection_declines ConstExprRole v ->
  expect ConstExprRole v kw
  = ([Invoked LiteralCoercion ConstExprRole],
     Raise (ArgumentError
              (expected_message ConstExprRole (get_argname kw) v))).
Proof.
  intros Hnode Hhook Hnone Hbool Hinsp.
  rewrite expect_of_literal; [|discriminate|assumption..].
  destruct v; try discriminate; try congruence;
    try (now elim (Hbool b)); reflexivity.
Qed.

(** X14.  The roles whose rule set has no literal coercion of its own
    (rows-returning statement, CTE holder) fail with [NotImplementedError],
    not with an argument error, on any value that is not a node. *)
Theorem returns_rows_has_no_literal_coercion (r : role) (v : value)
    (kw : kwargs) :
  r = ReturnsRowsRole \/ r = HasCTERole ->
  is_node v = false -> has_hook v = false ->
  inspection_declines r v ->
  expect r v kw
  = ([Invoked LiteralCoercion r], Raise NotImplementedError).
Proof.
  intros Hr Hnode Hhook Hinsp.
  rewrite expect_of_literal;
    [|destruct Hr as [->| ->]; discriminate|assumption..].
  destruct Hr as [->| ->]; reflexivity.
Qed.


(** ** The IN role *)

Lemma in_role_remaining_keywords (a : option string) (kw : kwargs) :
  only_keywords [Kargname] (without_expr_operator (with_argname a kw))
  = only_keywords [Kargname; Kexpr; Koperator] kw.
Proof.
  destruct kw as [x b c d e f g h i j]. unfold only_keywords. simpl.
  destruct x, b, c, d, e, f, g, h, i; reflexivity.
Qed.

(** X15.  The IN role refuses a value that is not an iterable, and a
    string: with the role's error when the call passes [expr], [operator]
    and at most [argname]; any further option turns the refusal into a
    [TypeError]. *)
Theorem in_role_refuses_scalars (v : value) (kw : kwargs) (expr : node)
    (op : operator) :
  kw_expr kw = Some expr -> kw_operator kw = Some op ->
  is_node v = false -> has_hook v = false ->
  (forall items, v <> PList items) ->
  inspection_declines InElementRole v ->
  (only_keywords [Kargname; Kexpr; Koperator] kw = true ->
     expect InElementRole v kw
     = ([Invoked LiteralCoercion InElementRole],
        Raise (ArgumentError
                 (expected_message InElementRole (get_argname kw) v))))
  /\ (only_keywords [Kargname; Kexpr; Koperator] kw = false ->
     expect InElementRole v kw
     = ([Invoked LiteralCoercion InElementRole], Raise TypeError)).
Proof.
  intros Hexpr Hop Hnode Hhook Hlist Hinsp.
  assert (Hexp : expect InElementRole v kw
                 = (Invoked LiteralCoercion InElementRole
                      :: fst (@_raise_for_expected_kw E value InElementRole v
                                (without_expr_operator
                                   (with_argname (get_argname kw) kw))),
                    snd (@_raise_for_expected_kw E value InElementRole v
                           (without_expr_operator
                              (with_argname (get_argname kw) kw))))).
  { rewrite expect_of_literal; [|discriminate|assumption..].
    unfold _literal_coercion. rewrite bind_emit.
    unfold InElementImpl_literal_coercion. simpl kw_expr. simpl kw_operator.
    rewrite Hexpr, Hop.
    destruct v; try (now elim (Hlist items));
      unfold _raise_for_expected_kw;
      destruct (only_keywords [Kargname] _); reflexivity. }
  rewrite Hexp. unfold _raise_for_expected_kw.
  rewrite in_role_remaining_keywords.
  split; intros ->; reflexivity.
Qed.

Lemma in_elements_stop_at_incomparable (r : role) (element : value)
    (expr : node) (op : operator) (kw : kwargs) (items : list value) :
  Forall (fun o => exists log b,
            _bind_param expr op o None = (log, Return b)) items ->
  only_keywords [Kargname] kw = true ->
  existsb not_comparable items = true ->
  exists log,
    mapM (in_element r element expr op kw) items
    = (log, Raise (ArgumentError
                     (expected_message r (get_argname kw) element))).
Proof.
  intros Hbind Hkw. induction Hbind as [|o items Ho Hitems IH]; simpl;
    [discriminate|].
  intros Hex. unfold in_element at 1. unfold not_comparable in Hex at 1.
  destruct (negb (_is_literal o)) eqn:Hlit; simpl in Hex.
  - destruct (negb (column_operators o)) eqn:Hcol; simpl in Hex.
    + unfold _raise_for_expected_kw. rewrite Hkw. simpl. eauto.
    + rewrite bind_ret. destruct (IH Hex) as [log Hlog].
      rewrite Hlog. simpl. eauto.
  - destruct (IH Hex) as [log Hlog].
    assert (Hok : exists l y,
               match o with
               | PNone => ret (PNode Null)
               | _ => n <- _bind_param expr op o None ;; ret (PNode n)
               end = (l, Return y)).
    { destruct Ho as (l & b & Hb).
      destruct o; try (rewrite Hb; simpl; eauto); unfold ret; eauto. }
    destruct Hok as (l & y & Hy). rewrite Hy. simpl. rewrite Hlog.
    simpl. eauto.
Qed.

(** X16.  An IN list with an element that is neither a literal nor an
    object with comparison operators (a table, say) is refused as a whole,
    when binding its elements does not fail first: the error names the
    list, not the element. *)
Theorem in_role_refuses_incomparable_element (items : list value)
    (kw : kwargs) (expr : node) (op : operator) :
  kw_expr kw = Some expr -> kw_operator kw = Some op ->
  only_keywords [Kargname; Kexpr; Koperator] kw = true ->
  inspection_declines InElementRole (PList items) ->
  Forall (fun o => exists log b,
            _bind_param expr op o None = (log, Return b)) items ->
  existsb not_comparable items = true ->
  exists log,
    expect InElementRole (PList items) kw
    = (log, Raise (ArgumentError
                     (expected_message InElementRole (get_argname kw)
                        (PList items)))).
Proof.
  intros Hexpr Hop Hkw Hinsp Hbind Hex.
  rewrite expect_of_literal; [|discriminate|reflexivity|reflexivity|assumption].
  unfold _literal_coercion. rewrite bind_emit.
  unfold InElementImpl_literal_coercion. simpl kw_expr. simpl kw_operator.
  rewrite Hexpr, Hop.
  destruct (in_elements_stop_at_incomparable InElementRole (PList items)
              expr op
              (without_expr_operator (with_argname (get_argname kw) kw))
              items Hbind) as [log Hlog].
  - now rewrite in_role_remaining_keywords.
  - assumption.
  - rewrite Hlog. simpl. eauto.
Qed.

(** X17.  The IN role and the DML-select role turn a resolved FROM clause
    that they do not accept into a SELECT from it, or into the SELECT that
    an alias wraps; no notice is emitted, and any other node is the
    role's error. *)
Theorem from_clause_becomes_select (r : role) (v : value) (n : node)
    (kw : kwargs) :
  r = InElementRole \/ r = DMLSelectRole ->
  resolves_to v n ->
  instance_of r n = false ->
  (_is_from_clause n = true ->
     expect r v kw
     = ([Invoked ImplicitCoercions r],
        Return (PNode (if is_Alias n && _is_select_statement (original n)
                       then original n else select n))))
  /\ (_is_from_clause n = false ->
     expect r v kw
     = ([Invoked ImplicitCoercions r],
        Raise (ArgumentError (expected_message r (get_argname kw) v)))).
Proof.
  intros Hr Hres Hin.
  rewrite (expect_of_resolved_node r v n kw);
    [|destruct Hr as [->| ->]; discriminate|assumption].
  unfold accept_or_coerce. simpl. rewrite Hin.
  assert (Himp : _implicit_coercions r v (PNode n) kw
                 = (emit (Invoked ImplicitCoercions r) ;;;
                    select_of_from_clause r v (PNode n) kw))
    by (destruct Hr as [->| ->]; reflexivity).
  rewrite Himp, bind_emit. unfold select_of_from_clause.
  split; intros ->; [|reflexivity].
  destruct (is_Alias n && _is_select_statement (original n)); reflexivity.
Qed.

(** ** The truncated-label and limit/offset roles *)

(** X18.  The truncated-label role looks at strings only.  A truncated
    label comes back as it is; another string comes back wrapped by
    [_truncated_label]; every other value, a node-bearing hook included,
    is the role's error: neither the conversion hook nor the inspection
    facility is consulted. *)
Theorem truncated_label_takes_strings_only (v : value) (kw : kwargs) :
  is_node v = false ->
  in_role TruncatedLabelRole (_truncated_label v) = false ->
  (forall s, v = PTruncLabel s ->
     expect TruncatedLabelRole v kw
     = ([Invoked LiteralCoercion TruncatedLabelRole;
         Invoked ImplicitCoercions TruncatedLabelRole], Return v))
  /\ (forall s, v = PStr s ->
     expect TruncatedLabelRole v kw
     = ([Invoked LiteralCoercion TruncatedLabelRole;
         Invoked ImplicitCoercions TruncatedLabelRole],
        Return (_truncated_label v)))
  /\ (is_string v = false ->
     expect TruncatedLabelRole v kw
     = ([Invoked LiteralCoercion TruncatedLabelRole;
         Invoked ImplicitCoercions TruncatedLabelRole],
        Raise (ArgumentError
                 (expected_message TruncatedLabelRole (get_argname kw) v)))).
Proof.
  intros Hnode Hrole. rewrite expect_steps, Hnode. simpl negb. cbv iota.
  unfold _resolve_for_clause_element, _StringOnly_resolve_for_clause_element,
    _literal_coercion. rewrite bind_emit.
  unfold TruncatedLabelImpl_literal_coercion.
  split; [|split].
  - intros s ->. reflexivity.
  - intros s ->. simpl. unfold accept_or_coerce. rewrite Hrole. reflexivity.
  - intros Hstr.
    destruct v; try discriminate; simpl; unfold accept_or_coerce;
      rewrite Hrole; reflexivity.
Qed.

(** X19.  For the limit/offset role, a value other than [None] is turned
    into an integer by [util.asint] and bound as an offset/limit
    parameter; a value that [int()] refuses raises [ValueError],
    [TypeError] or [OverflowError], not the role's [ArgumentError]. *)
Theorem limit_offset_binds_integers (v : value) (kw : kwargs)
    (name : option string) (type_ : option sqltype) :
  kw_name kw = Some name -> kw_type_ kw = Some type_ ->
  is_node v = false -> has_hook v = false -> v <> PNone ->
  inspection_declines LimitOffsetRole v ->
  (forall z, asint v = IntOf z ->
     instance_of LimitOffsetRole (_OffsetLimitParam name z type_) = true ->
     expect LimitOffsetRole v kw
     = ([Invoked LiteralCoercion LimitOffsetRole],
        Return (PNode (_OffsetLimitParam name z type_))))
  /\ (asint v = IntValueError ->
     expect LimitOffsetRole v kw
     = ([Invoked LiteralCoercion LimitOffsetRole], Raise ValueError))
  /\ (asint v = IntTypeError ->
     expect LimitOffsetRole v kw
     = ([Invoked LiteralCoercion LimitOffsetRole], Raise TypeError))
  /\ (asint v = IntOverflowError ->
     expect LimitOffsetRole v kw
     = ([Invoked LiteralCoercion LimitOffsetRole], Raise OverflowError)).
Proof.
  intros Hname Htype Hnode Hhook Hnone Hinsp.
  rewrite expect_of_literal; [|discriminate|assumption..].
  unfold _literal_coercion. rewrite bind_emit.
  unfold LimitOffsetImpl_literal_coercion. simpl kw_name. simpl kw_type_.
  rewrite Hname, Htype.
  split; [|split; [|split]].
  - intros z Hz Hin.
    destruct v; try congruence; rewrite Hz; simpl;
      unfold accept_or_coerce; simpl; rewrite Hin; reflexivity.
  - intros Hz. destruct v; try congruence; rewrite Hz; reflexivity.
  - intros Hz. destruct v; try congruence; rewrite Hz; reflexivity.
  - intros Hz. destruct v; try congruence; rewrite Hz; reflexivity.
Qed.

(** X20.  The options that a literal coercion requires are not optional:
    for a value that reaches the literal coercion, the binary-element and
    IN roles without [expr] or [operator], and the limit/offset role
    without [name] or [type_], raise [TypeError], for [None] as well. *)
Theorem required_options_are_required (r : role) (v : value)
    (kw : kwargs) :
  (r = BinaryElementRole \/ r = InElementRole)
  /\ (kw_expr kw = None \/ kw_operator kw = None)
  \/ r = LimitOffsetRole /\ (kw_name kw = None \/ kw_type_ kw = None) ->
  is_node v = false -> has_hook v = false ->
  inspection_declines r v ->
  expect r v kw = ([Invoked LiteralCoercion r], Raise TypeError).
Proof.
  intros Hr Hnode Hhook Hinsp.
  rewrite expect_of_literal;
    [|destruct Hr as [[[->| ->] _]|[-> _]]; discriminate|assumption..].
  unfold _literal_coercion. rewrite bind_emit.
  destruct Hr as [[[->| ->] [H|H]]|[-> [H|H]]];
    unfold BinaryElementImpl_literal_coercion,
      InElementImpl_literal_coercion, LimitOffsetImpl_literal_coercion;
    simpl kw_expr; simpl kw_operator; simpl kw_name; simpl kw_type_;
    rewrite H; try reflexivity.
  - destruct (kw_expr kw); reflexivity.
  - destruct (kw_expr kw); reflexivity.
  - destruct (kw_name kw); reflexivity.
Qed.


(** ** The statement and FROM roles *)


(** X22.  For the anonymized-FROM role, a resolved SELECT passed with
    [allow_select=True] comes back as its subquery, with one deprecation
    notice and without the alias that the role gives to the nodes it
    accepts: the post-coercion does not run after an implicit coercion. *)
Theorem anonymized_from_select_is_not_aliased (v : value) (n : node)
    (kw : kwargs) :
  resolves_to v n ->
  _is_select_statement n = true ->
  instance_of AnonymizedFromClauseRole n = false ->
  get_allow_select kw = true ->
  expect AnonymizedFromClauseRole v kw
  = ([Invoked ImplicitCoercions AnonymizedFromClauseRole;
      Deprecated subquery_notice],
     Return (PNode (subquery n))).
Proof.
  intros Hres Hsel Hin Hallow.
  rewrite (expect_of_resolved_node _ v n kw); [|discriminate|assumption].
  unfold accept_or_coerce. simpl. rewrite Hin.
  unfold _implicit_coercions. rewrite bind_emit.
  unfold StrictFromClauseImpl_implicit_coercions.
  now rewrite Hsel, Hallow.
Qed.

(** X23.  The compound-element role lets a resolved FROM clause through
    and refuses any other node; its implicit coercion takes no option but
    [argname], so any other option is a [TypeError] first. *)
Theorem compound_element_implicit_coercion (v : value) (n : node)
    (kw : kwargs) :
  resolves_to v n ->
  instance_of CompoundElementRole n = false ->
  (only_keywords [Kargname] kw = true -> _is_from_clause n = true ->
     expect CompoundElementRole v kw
     = ([Invoked ImplicitCoercions CompoundElementRole], Return (PNode n)))
  /\ (only_keywords [Kargname] kw = true -> _is_from_clause n = false ->
     expect CompoundElementRole v kw
     = ([Invoked ImplicitCoercions CompoundElementRole],
        Raise (ArgumentError
                 (expected_message CompoundElementRole (get_argname kw) v))))
  /\ (only_keywords [Kargname] kw = false ->
     expect CompoundElementRole v kw
     = ([Invoked ImplicitCoercions CompoundElementRole], Raise TypeError)).
Proof.
  intros Hres Hin.
  rewrite (expect_of_resolved_node _ v n kw); [|discriminate|assumption].
  unfold accept_or_coerce. simpl. rewrite Hin.
  unfold _implicit_coercions. rewrite bind_emit.
  unfold CompoundElementImpl_implicit_coercions.
  split; [|split].
  - intros -> ->. reflexivity.
  - intros -> ->. reflexivity.
  - intros ->. reflexivity.
Qed.

Lemma with_as_key_has_a_keyword (kw : kwargs) :
  only_keywords [] (with_as_key kw) = false.
Proof.
  destruct kw as [x b c d e f g h i j]. unfold only_keywords. simpl.
  destruct x, b, c, d, e, f, h, i; reflexivity.
Qed.

(** X24.  The ordering role takes no option once its node is accepted:
    with any option, [argname] included, the result is a [TypeError]; so
    it is for every call through [expect_as_key]. *)
Theorem order_by_takes_no_option (v : value) (n : node) (kw : kwargs) :
  resolves_to v n ->
  instance_of OrderByRole n = true ->
  (only_keywords [] kw = false ->
     expect OrderByRole v kw = ([], Raise TypeError))
  /\ expect_as_key OrderByRole v kw = ([], Raise TypeError).
Proof.
  intros Hres Hin.
  assert (H : forall kw', only_keywords [] kw' = false ->
            expect OrderByRole v kw' = ([], Raise TypeError)).
  { intros kw' Hkw.
    rewrite (expect_of_resolved_node _ v n kw'); [|discriminate|assumption].
    unfold accept_or_coerce. simpl. rewrite Hin.
    unfold OrderByImpl_post_coercion. now rewrite Hkw. }
  split; [apply H|]. apply H, with_as_key_has_a_keyword.
Qed.

(** X25.  The labeled-column role labels a resolved node that is an
    expression element without being accepted; a SELECT is first turned
    into its scalar subquery, with one notice, and then labeled when that
    subquery is an expression element. *)
Theorem labeled_column_labels_expressions (v : value) (n : node)
    (kw : kwargs) :
  resolves_to v n ->
  instance_of LabeledColumnExprRole n = false ->
  (instance_of ExpressionElementRole n = true ->
     expect LabeledColumnExprRole v kw
     = ([Invoked ImplicitCoercions LabeledColumnExprRole],
        Return (PNode (label_None n))))
  /\ (instance_of ExpressionElementRole n = false ->
      _is_select_statement n = true ->
      instance_of ExpressionElementRole (scalar_subquery n) = true ->
     expect LabeledColumnExprRole v kw
     = ([Invoked ImplicitCoercions LabeledColumnExprRole;
         Deprecated scalar_subquery_notice],
        Return (PNode (label_None (scalar_subquery n))))).
Proof.
  intros Hres Hin.
  rewrite (expect_of_resolved_node _ v n kw); [|discriminate|assumption].
  unfold accept_or_coerce. simpl. rewrite Hin.
  unfold _implicit_coercions. rewrite bind_emit.
  unfold LabeledColumnExprImpl_implicit_coercions. simpl in_role.
  split.
  - intros ->. reflexivity.
  - intros -> Hsel Hsub. unfold _ColumnCoercions_implicit_coercions.
    rewrite Hsel. simpl. rewrite Hsub. reflexivity.
Qed.

(** ** Notices, hooks and inspection *)

Lemma implicit_coercion_notices (r : role) (v : value) (n : node)
    (kw : kwargs) :
  notices (fst (_implicit_coercions r v (PNode n) kw)) = []
  \/ notices (fst (_implicit_coercions r v (PNode n) kw))
     = [scalar_subquery_notice]
  \/ notices (fst (_implicit_coercions r v (PNode n) kw)) = [subquery_notice].
Proof.
  unfold _implicit_coercions. rewrite bind_emit. simpl fst.
  destruct r;
    unfold _ColumnCoercions_implicit_coercions,
      InElementImpl_implicit_coercions, DMLSelectImpl_implicit_coercions,
      select_of_from_clause, RoleImpl_implicit_coercions,
      _ReturnsStringKey_implicit_coercions,
      TruncatedLabelImpl_implicit_coercions,
      LimitOffsetImpl_implicit_coercions,
      LabeledColumnExprImpl_implicit_coercions,
      _ColumnCoercions_implicit_coercions,
      SelectStatementImpl_implicit_coercions,
      FromClauseImpl_implicit_coercions,
      StrictFromClauseImpl_implicit_coercions,
      CompoundElementImpl_implicit_coercions;
    simpl in_role;
    repeat match goal with
           | |- context [if ?b then _ else _] => destruct b; simpl
           end;
    auto.
Qed.

(** X26.  On a node, or a hook chain that ends in one, [expect] emits no
    deprecation notice when the node is accepted, and otherwise at most
    one, which is the scalar-subquery notice or the subquery notice. *)
Theorem notices_on_a_resolved_node (r : role) (v : value) (n : node)
    (kw : kwargs) :
  r <> TruncatedLabelRole ->
  resolves_to v n ->
  (instance_of r n = true -> notices (fst (expect r v kw)) = [])
  /\ (notices (fst (expect r v kw)) = []
      \/ notices (fst (expect r v kw)) = [scalar_subquery_notice]
      \/ notices (fst (expect r v kw)) = [subquery_notice]).
Proof.
  intros Hr Hres.
  rewrite (expect_of_resolved_node r v n kw Hr Hres).
  unfold accept_or_coerce. simpl in_role.
  destruct (instance_of r n) eqn:Hin.
  - assert (Hacc : notices (fst (match _post_coercion r, @PNode node n with
                                 | Some post, PNode m => post m kw
                                 | _, _ => ret (PNode n)
                                 end)) = []).
    { destruct (_post_coercion r) as [post|] eqn:Hpost; [|reflexivity].
      now rewrite (post_coercion_silent r post n kw Hpost). }
    split; [intros _|left]; exact Hacc.
  - split; [discriminate|]. apply implicit_coercion_notices.
Qed.

(** X27.  A conversion hook that ends in a plain value ([None], a boolean,
    a number, a string) instead of a node makes the column-coercion roles
    fail with [AttributeError], not with the role's argument error. *)
Theorem hook_ending_in_a_plain_value (r : role) (v : value) (kw : kwargs) :
  column_coercions r = true ->
  has_hook v = true ->
  is_primitive (fst (unwrap v)) = true ->
  expect r v kw = ([Invoked ImplicitCoercions r], Raise AttributeError).
Proof.
  intros Hcc Hhook Hprim.
  assert (Hnode : is_node v = false)
    by (destruct v; try discriminate; reflexivity).
  rewrite expect_steps, Hnode. simpl negb. cbv iota.
  rewrite RoleImpl_resolve_hooked; [|intros ->; discriminate|assumption].
  rewrite bind_ret. unfold accept_or_coerce.
  destruct (fst (unwrap v)); try discriminate;
    destruct r; try discriminate; reflexivity.
Qed.

(** X28.  A value that the inspection facility converts resolves like the
    node its descriptor gives: when that node is accepted, [expect] gives
    what it gives for the node, and no literal coercion is called. *)
Theorem inspected_value_is_transparent (r : role) (v : value) (n : node)
    (kw : kwargs) :
  uses_inspection r = true ->
  r <> TruncatedLabelRole ->
  is_node v = false -> has_hook v = false ->
  inspect v = Some (Some (PNode n)) ->
  instance_of r n = true ->
  expect r v kw = expect r (PNode n) kw
  /\ calls_no_coercion (expect r v kw).
Proof.
  intros Hu Hr Hnode Hhook Hinsp Hin.
  assert (Heq : expect r v kw = expect r (PNode n) kw).
  { rewrite (expect_of_resolved_node r (PNode n) n kw Hr eq_refl).
    rewrite expect_steps, Hnode. simpl negb. cbv iota.
    rewrite (RoleImpl_resolve_unhooked r v kw Hr Hhook), Hu, Hinsp.
    rewrite bind_ret. unfold accept_or_coerce. simpl. now rewrite Hin. }
  split; [assumption|]. rewrite Heq.
  rewrite (expect_accepted r (PNode n) n kw eq_refl Hin).
  destruct (_post_coercion r) eqn:Hpost; [|reflexivity].
  eapply post_coercion_calls_no_coercion; eassumption.
Qed.

(** ** The batch resolver *)

Lemma col_expression_invariant (column_nodes : node -> list node)
    (r : role) (expr : value) (log : list event) (e : col_expression) :
  col_expression_of column_nodes r expr = (log, Return e) ->
  (ce_column e = PNone \/ ce_strname e = PNone)
  /\ ce_add_element e
     = match ce_column e with PNone => ce_strname e | c => c end.
Proof.
  unfold col_expression_of. intros H.
  destruct (expect r expr no_kw) as [l [resolved|x]]; simpl in H;
    [|discriminate].
  destruct (is_string resolved).
  - inversion H; subst. simpl. auto.
  - destruct resolved; try discriminate.
    destruct (column_nodes n); inversion H; subst; simpl; auto.
Qed.

(** X29.  [expect_col_expression_collection] yields one tuple per
    expression; in each tuple [column] and [strname] are never both set,
    and [add_element] is the column when there is one and the string name
    otherwise. *)
Theorem col_expression_collection_invariant
    (column_nodes : node -> list node) (r : role)
    (expressions : list value) (log : list event)
    (entries : list col_expression) :
  expect_col_expression_collection column_nodes r expressions
  = (log, Return entries) ->
  length entries = length expressions
  /\ Forall (fun e =>
               (ce_column e = PNone \/ ce_strname e = PNone)
               /\ ce_add_element e
                  = match ce_column e with
                    | PNone => ce_strname e
                    | c => c
                    end) entries.
Proof.
  unfold expect_col_expression_collection. intros H.
  split; [eapply mapM_length; eassumption|].
  revert log entries H.
  induction expressions as [|x xs IH]; simpl; intros log entries H.
  - inversion H. constructor.
  - destruct (col_expression_of column_nodes r x) as [l1 [e|err]] eqn:Hx;
      simpl in H; [|discriminate].
    destruct (mapM (col_expression_of column_nodes r) xs)
      as [l2 [es|err]] eqn:Hxs; simpl in H; [|discriminate].
    inversion H; subst. constructor.
    + eapply col_expression_invariant; eassumption.
    + eapply IH; reflexivity.
Qed.

(** X30.  For a string-key role, a batch of column names comes back as
    the names: each tuple is [(name, None, name, name)], in the order of
    the input. *)
Theorem col_expression_collection_of_names
    (column_nodes : node -> list node) (r : role) (names : list string) :
  returns_string_key r = true ->
  (forall s, inspection_declines r (PStr s)) ->
  snd (expect_col_expression_collection column_nodes r (map PStr names))
  = Return (map (fun s => {| ce_resolved := PStr s; ce_column := PNone;
                             ce_strname := PStr s;
                             ce_add_element := PStr s |}) names).
Proof.
  intros Hkey Hinsp. unfold expect_col_expression_collection.
  induction names as [|s names IH]; simpl; [reflexivity|].
  unfold col_expression_of at 1.
  destruct (string_key_passes_through r (PStr s) no_kw Hkey eq_refl
              (Hinsp s)) as [Hexp _].
  rewrite Hexp. simpl.
  destruct (mapM (col_expression_of column_nodes r) (map PStr names))
    as [l [es|err]]; simpl in *; [|discriminate].
  inversion IH; subst. reflexivity.
Qed.

End Coverage.

(** * The engine on concrete inputs

    The theorems above, applied to the reference implementation, and the
    inputs on which the specification's wording fails. *)

#[local] Existing Instance Model.elements.



(** C2: the number 5, which the inspection facility does not know, and
    the columns-clause role. *)
Lemma inspection_step_witness :
  (inspect (PInt 5) = None ->
     _resolve_for_clause_element ColumnsClauseRole (PInt 5) no_kw
     = _literal_coercion ColumnsClauseRole (PInt 5)
         (with_argname (get_argname no_kw) no_kw)
     /\ exists log,
          fst (expect ColumnsClauseRole (PInt 5) no_kw)
          = Invoked LiteralCoercion ColumnsClauseRole :: log)
  /\ (inspect (PInt 5) = Some None ->
     expect ColumnsClauseRole (PInt 5) no_kw
     = ([], Raise (ArgumentError
                     (expected_message ColumnsClauseRole (get_argname no_kw)
                        (PInt 5)))))
  /\ (forall w, inspect (PInt 5) = Some (Some w) ->
     _resolve_for_clause_element ColumnsClauseRole (PInt 5) no_kw = ret w).
Proof.
  apply (@inspection_step Model.elements ColumnsClauseRole (PInt 5) no_kw);
    [reflexivity|discriminate|reflexivity|reflexivity].
Defined.

(** C2 as stated fails: for an [Engine] the inspection facility returns a
    descriptor (an [Inspector]) that has no conversion hook; [expect]
    raises at once, and the literal coercion is never called. *)
Lemma inspection_fallthrough_counterexample :
  uses_inspection ColumnsClauseRole = true
  /\ is_node Model.engine_object = false
  /\ has_hook Model.engine_object = false
  /\ inspect Model.engine_object = Some None
  /\ expect ColumnsClauseRole Model.engine_object no_kw
     = ([], Raise (ArgumentError
          "Column expression or FROM clause expected, got <Engine object>."))
  /\ _resolve_for_clause_element ColumnsClauseRole Model.engine_object no_kw
     <> _literal_coercion ColumnsClauseRole Model.engine_object
          (with_argname (get_argname no_kw) no_kw).
Proof.
  repeat split; try reflexivity. vm_compute. discriminate.
Qed.

(** C3: a SELECT passed where a strict FROM clause is required, without
    and with [allow_select=True]. *)
Lemma strict_from_clause_select_witness :
  expect StrictFromClauseRole (PNode (Model.Select "s")) no_kw
  = ([Invoked ImplicitCoercions StrictFromClauseRole],
     Raise (ArgumentError
              (expected_message StrictFromClauseRole (get_argname no_kw)
                 (PNode (Model.Select "s")))))
  /\ expect StrictFromClauseRole (PNode (Model.Select "s"))
       Model.kw_allow_select_true
     = ([Invoked ImplicitCoercions StrictFromClauseRole;
         Deprecated subquery_notice],
        Return (PNode (Model.Subquery (Model.Select "s"))))
  /\ notices (fst (expect StrictFromClauseRole (PNode (Model.Select "s"))
                     Model.kw_allow_select_true))
     = [subquery_notice].
Proof.
  destruct (@strict_from_clause_select Model.elements
              (PNode (Model.Select "s")) (Model.Select "s") no_kw
              eq_refl eq_refl eq_refl) as (Hrefused & _).
  destruct (@strict_from_clause_select Model.elements
              (PNode (Model.Select "s")) (Model.Select "s")
              Model.kw_allow_select_true
              eq_refl eq_refl eq_refl) as (_ & Hallowed).
  split; [apply Hrefused; now left|apply Hallowed; reflexivity].
Defined.

(** C3 with [allow_select=True], run. *)
Example strict_from_clause_allow_select :
  expect StrictFromClauseRole (PNode (Model.Select "s"))
    Model.kw_allow_select_true
  = ([Invoked ImplicitCoercions StrictFromClauseRole;
      Deprecated subquery_notice],
     Return (PNode (Model.Subquery (Model.Select "s")))).
Proof. reflexivity. Qed.

(** C4: [column.in_([])] and [column.in_([1])]. *)
Lemma in_role_empty_marker_witness :
  expect InElementRole (PList []) (Model.kw_in in_op)
  = ([Invoked LiteralCoercion InElementRole],
     Return (PNode (Model.Annotated
                      (Model.Grouping (Model.TClauseList []) empty_in_op)
                      (empty_in_op, empty_notin_op))))
  /\ expect InElementRole (PList [PInt 1]) (Model.kw_in in_op)
     = ([Invoked LiteralCoercion InElementRole],
        Return (PNode (Model.Grouping
                         (Model.TClauseList
                            [PNode (Model.TBindParameter None (PInt 1)
                                      Model.NullType false)])
                         in_op))).
Proof.
  pose proof (@in_role_empty_marker Model.elements (Model.kw_in in_op)
                (Model.Column "x") in_op Model.in_ops_of
                eq_refl eq_refl
                (fun H : false = true =>
                   match Bool.diff_false_true H with end)
                (fun _ => eq_refl) (fun _ => eq_refl) (fun _ => eq_refl)
                (fun args => length_map _ args)
                (fun _ _ => eq_refl) (fun _ _ => eq_refl)) as H.
  destruct H as (Hempty & _ & _ & _ & Hfull).
  split; [exact Hempty|].
  apply (Hfull [PInt 1]
           [PNode (Model.TBindParameter None (PInt 1) Model.NullType false)]
           []); [discriminate|reflexivity].
Defined.

(** C4 for [column.notin_([])]: the pair is the other way round. *)
Example notin_empty_marker :
  expect InElementRole (PList []) (Model.kw_in notin_op)
  = ([Invoked LiteralCoercion InElementRole],
     Return (PNode (Model.Annotated
                      (Model.Grouping (Model.TClauseList []) empty_notin_op)
                      (empty_notin_op, empty_in_op)))).
Proof. reflexivity. Qed.



(** C6: the three literals of the columns clause. *)
Lemma columns_clause_round_trip_witness :
  expect ColumnsClauseRole (PStr "*") no_kw
  = ([Invoked LiteralCoercion ColumnsClauseRole],
     Return (PNode (Model.TColumnClause "*" true)))
  /\ expect ColumnsClauseRole (PInt 5) no_kw
     = ([Invoked LiteralCoercion ColumnsClauseRole],
        Return (PNode (Model.TColumnClause "5" true)))
  /\ expect ColumnsClauseRole PNone no_kw
     = ([Invoked LiteralCoercion ColumnsClauseRole],
        Return (PNode Model.TNull)).
Proof.
  apply (@columns_clause_round_trip Model.elements no_kw).
  - intros _. repeat split.
  - intros text. reflexivity.
  - reflexivity.
Defined.

(** C7: a string passed as a FROM clause. *)
Lemma no_text_coercion_rejects_strings_witness :
  exists log msg,
    expect FromClauseRole (@PStr Model.tnode "raw sql") no_kw
    = (log, Raise (ArgumentError msg))
    /\ (msg = no_text_message (str_content (@PStr Model.tnode "raw sql"))
                (get_argname no_kw)
        \/ msg = expected_message FromClauseRole (get_argname no_kw)
                   (@PStr Model.tnode "raw sql")).
Proof.
  apply (@no_text_coercion_rejects_strings Model.elements FromClauseRole
           (@PStr Model.tnode "raw sql") no_kw); [reflexivity|reflexivity|].
  intros _ w. discriminate.
Defined.

(** C7, run with and without [argname]. *)
Example from_clause_rejects_text :
  expect FromClauseRole (PStr "raw sql") no_kw
  = ([Invoked LiteralCoercion FromClauseRole],
     Raise (ArgumentError
       "Textual SQL expression 'raw sql' should be explicitly declared as text('raw sql')"))
  /\ expect ColumnArgumentRole (PStr "raw sql")
       (with_argname (Some "col") no_kw)
     = ([Invoked LiteralCoercion ColumnArgumentRole],
        Raise (ArgumentError
          "Column expression expected for argument 'col'; got 'raw sql'.")).
Proof. split; reflexivity. Qed.



(** C9: a descending label, and a plain column, as ORDER BY expressions. *)
Lemma order_by_label_reference_witness :
  expect OrderByRole
    (PNode (Model.Desc (Model.Label "l" (Model.Column "c")))) no_kw
  = ([], Return (PNode (Model.TLabelReference
                          (Model.Desc (Model.Label "l" (Model.Column "c"))))))
  /\ expect OrderByRole (PNode (Model.Column "c")) no_kw
     = ([], Return (PNode (Model.Column "c"))).
Proof.
  destruct (@order_by_label_reference Model.elements
              (PNode (Model.Desc (Model.Label "l" (Model.Column "c"))))
              (Model.Desc (Model.Label "l" (Model.Column "c"))) no_kw
              eq_refl eq_refl eq_refl) as (Hmarked & _).
  destruct (@order_by_label_reference Model.elements
              (PNode (Model.Column "c")) (Model.Column "c") no_kw
              eq_refl eq_refl eq_refl) as (_ & Hplain).
  split.
  - apply (Hmarked (Model.Label "l" (Model.Column "c"))). reflexivity.
  - apply Hplain. reflexivity.
Defined.

(** C9 as stated fails.  The order-by-label element of a descending label
    is the label, and [expect] returns a label reference to the whole
    descending expression, not to that label; and with an option passed,
    an expression without the element is not returned but raises. *)
Lemma order_by_label_reference_counterexample :
  instance_of OrderByRole
    (Model.Desc (Model.Label "l" (Model.Column "c"))) = true
  /\ _order_by_label_element
       (Model.Desc (Model.Label "l" (Model.Column "c")))
     = Some (Model.Label "l" (Model.Column "c"))
  /\ expect OrderByRole
       (PNode (Model.Desc (Model.Label "l" (Model.Column "c")))) no_kw
     = ([], Return (PNode (_label_reference
                             (Model.Desc
                                (Model.Label "l" (Model.Column "c"))))))
  /\ expect OrderByRole
       (PNode (Model.Desc (Model.Label "l" (Model.Column "c")))) no_kw
     <> ([], Return (PNode (_label_reference
                              (Model.Label "l" (Model.Column "c")))))
  /\ _order_by_label_element (Model.Column "c") = None
  /\ expect OrderByRole (PNode (Model.Column "c"))
       (with_argname (Some "clauses") no_kw)
     = ([], Raise TypeError).
Proof.
  repeat split; try reflexivity. vm_compute. discriminate.
Qed.

(** C9, run: on a label, on a column, and on a label reached through a
    conversion hook. *)
Example order_by_examples :
  expect OrderByRole (PNode (Model.Label "l" (Model.Column "c"))) no_kw
  = ([], Return (PNode (Model.TLabelReference
                          (Model.Label "l" (Model.Column "c")))))
  /\ expect OrderByRole (PNode (Model.Column "c")) no_kw
     = ([], Return (PNode (Model.Column "c")))
  /\ expect OrderByRole
       (PHook true (PNode (Model.Label "l" (Model.Column "c")))) no_kw
     = ([], Return (PNode (Model.TLabelReference
                             (Model.Label "l" (Model.Column "c"))))).
Proof. repeat split. Qed.

(** C10: [None] as the limit of a SELECT, a hook that gives [None], and a
    table as the limit. *)
Lemma limit_offset_none_witness :
  expect LimitOffsetRole PNone Model.kw_limit
  = ([Invoked LiteralCoercion LimitOffsetRole;
      Invoked ImplicitCoercions LimitOffsetRole], Return PNone)
  /\ expect LimitOffsetRole (PHook false (PHook false PNone)) no_kw
     = ([Invoked ImplicitCoercions LimitOffsetRole], Return PNone)
  /\ expect LimitOffsetRole (PNode (Model.Table "t")) Model.kw_limit
     = ([Invoked ImplicitCoercions LimitOffsetRole],
        Raise (ArgumentError
                 (expected_message LimitOffsetRole
                    (get_argname Model.kw_limit) (PNode (Model.Table "t"))))).
Proof.
  destruct (@limit_offset_none Model.elements Model.kw_limit)
    as (Hnone & _ & _ & _ & Hnode).
  destruct (@limit_offset_none Model.elements no_kw)
    as (_ & _ & Hhook & _).
  split; [|split].
  - apply Hnone; [reflexivity|reflexivity|]. intros H. discriminate H.
  - apply (Hhook [false; false]). discriminate.
  - apply (Hnode (PNode (Model.Table "t")) (Model.Table "t")); reflexivity.
Defined.

(** C10 as stated fails: [expect(LimitOffsetRole, None)] without the
    [name] and [type_] options raises [TypeError]. *)
Lemma limit_offset_none_counterexample :
  expect LimitOffsetRole PNone no_kw
  = ([Invoked LiteralCoercion LimitOffsetRole], Raise TypeError)
  /\ expect LimitOffsetRole PNone no_kw
     <> ([Invoked LiteralCoercion LimitOffsetRole;
          Invoked ImplicitCoercions LimitOffsetRole], Return PNone).
Proof.
  split; [reflexivity|]. vm_compute. discriminate.
Qed.

(** ** The further properties on concrete inputs *)

(** Closes a premise that holds by computation, and leaves the statement
    about [expect] to the theorem. *)
Ltac premise :=
  match goal with
  | |- expect _ _ _ = _ => fail 1
  | |- _ =>
      solve [ reflexivity | discriminate
            | let H := fresh in intros H; discriminate H
            | now left | now right ]
  end.

(** X1: a column behind two conversion hooks, as a WHERE criterion. *)
Lemma hook_chain_is_transparent_witness :
  expect WhereHavingRole
    (PHook true (PHook false (PNode (Model.Column "c")))) no_kw
  = expect WhereHavingRole (PNode (Model.Column "c")) no_kw.
Proof.
  apply (@hook_chain_is_transparent Model.elements WhereHavingRole
           [true; false] (Model.Column "c") no_kw);
    [discriminate|reflexivity].
Defined.

(** X2: a table where a constant is required. *)
Lemma default_implicit_coercion_rejects_witness :
  expect ConstExprRole (PNode (Model.Table "t")) no_kw
  = ([Invoked ImplicitCoercions ConstExprRole],
     Raise (ArgumentError
              (expected_message ConstExprRole (get_argname no_kw)
                 (PNode (Model.Table "t"))))).
Proof.
  apply (@default_implicit_coercion_rejects Model.elements ConstExprRole
           (PNode (Model.Table "t")) (Model.Table "t") no_kw);
    reflexivity.
Defined.

(** X3: a column name as a DML column. *)
Lemma string_key_passes_through_witness :
  expect DMLColumnRole (PStr "name") no_kw
  = ([Invoked LiteralCoercion DMLColumnRole;
      Invoked ImplicitCoercions DMLColumnRole], Return (PStr "name"))
  /\ expect_as_key DMLColumnRole (PStr "name") no_kw
     = ([Invoked LiteralCoercion DMLColumnRole;
         Invoked ImplicitCoercions DMLColumnRole], Return (PStr "name")).
Proof.
  apply (@string_key_passes_through Model.elements DMLColumnRole
           (PStr "name") no_kw); [reflexivity|reflexivity|].
  intros H. discriminate H.
Defined.

(** X4: the number 5 as a DML column. *)
Lemma string_key_rejects_other_values_witness :
  expect DMLColumnRole (PInt 5) no_kw
  = ([Invoked LiteralCoercion DMLColumnRole;
      Invoked ImplicitCoercions DMLColumnRole],
     Raise (ArgumentError
              (expected_message DMLColumnRole (get_argname no_kw) (PInt 5)))).
Proof.
  apply (@string_key_rejects_other_values Model.elements DMLColumnRole
           (PInt 5) no_kw); try reflexivity.
  intros H. discriminate H.
Defined.

(** X5: a column as a DML column, as a key and as itself. *)
Lemma dml_column_as_key_witness :
  expect_as_key DMLColumnRole (PNode (Model.Column "c")) no_kw
  = ([], Return (PStr "c"))
  /\ expect DMLColumnRole (PNode (Model.Column "c")) no_kw
     = ([], Return (PNode (Model.Column "c"))).
Proof.
  destruct (@dml_column_as_key Model.elements (Model.Column "c") no_kw
              eq_refl) as (Hkey & Hnode & _).
  split; [apply Hkey|apply Hnode]; reflexivity.
Defined.

(** X6: a SELECT as a WHERE criterion. *)
Lemma column_coercions_of_select_witness :
  expect WhereHavingRole (PNode (Model.Select "s")) no_kw
  = ([Invoked ImplicitCoercions WhereHavingRole;
      Deprecated scalar_subquery_notice],
     Return (PNode (Model.ScalarSelect (Model.Select "s")))).
Proof.
  destruct (@column_coercions_of_select Model.elements WhereHavingRole
              (PNode (Model.Select "s")) (Model.Select "s") no_kw
              eq_refl eq_refl eq_refl) as (Hsel & _).
  apply Hsel. reflexivity.
Defined.

(** X7: the number 5 as a WHERE criterion. *)
Lemma numbers_are_refused_witness :
  expect WhereHavingRole (PInt 5) no_kw
  = ([Invoked LiteralCoercion WhereHavingRole],
     Raise (ArgumentError
              (expected_message WhereHavingRole (get_argname no_kw)
                 (PInt 5)))).
Proof.
  apply (@numbers_are_refused Model.elements WhereHavingRole (PInt 5) no_kw);
    try reflexivity; discriminate.
Defined.

(** X8: a string as a statement option. *)
Lemma strings_become_text_witness :
  expect StatementOptionRole (PStr "x = 1") no_kw
  = ([Invoked LiteralCoercion StatementOptionRole],
     Return (PNode (Model.TTextClause "x = 1"))).
Proof.
  apply (@strings_become_text Model.elements StatementOptionRole
           (PStr "x = 1") no_kw);
    [now left|reflexivity| |reflexivity].
  intros H. discriminate H.
Defined.

(** X9: a string as a WHERE criterion. *)
Lemma where_refuses_text_witness :
  expect WhereHavingRole (PStr "x = 1") no_kw
  = ([Invoked LiteralCoercion WhereHavingRole],
     Raise (ArgumentError
              (no_text_message (str_content (@PStr Model.tnode "x = 1"))
                 (get_argname no_kw)))).
Proof.
  apply (@where_refuses_text Model.elements (PStr "x = 1") no_kw);
    [reflexivity|]. intros H. discriminate H.
Defined.

(** X10: a column name in GROUP BY. *)
Lemma by_of_text_is_label_reference_witness :
  expect ByOfRole (PStr "name") no_kw
  = ([Invoked LiteralCoercion ByOfRole],
     Return (PNode (Model.TTextualLabelReference "name"))).
Proof.
  apply (@by_of_text_is_label_reference Model.elements (PStr "name") no_kw);
    [reflexivity| |reflexivity].
  intros H. discriminate H.
Defined.



(** X13: the integer 0 is not [False]. *)
Lemma const_expr_takes_constants_only_witness :
  expect ConstExprRole (PInt 0) no_kw
  = ([Invoked LiteralCoercion ConstExprRole],
     Raise (ArgumentError
              (expected_message ConstExprRole (get_argname no_kw) (PInt 0)))).
Proof.
  apply (@const_expr_takes_constants_only Model.elements (PInt 0) no_kw);
    try reflexivity; discriminate.
Defined.

(** X14: a string where a rows-returning statement is required. *)
Lemma returns_rows_has_no_literal_coercion_witness :
  expect ReturnsRowsRole (PStr "select 1") no_kw
  = ([Invoked LiteralCoercion ReturnsRowsRole], Raise NotImplementedError).
Proof.
  apply (@returns_rows_has_no_literal_coercion Model.elements
           ReturnsRowsRole (PStr "select 1") no_kw);
    [now left|reflexivity|reflexivity|].
  intros H. discriminate H.
Defined.

(** X15: [column.in_(1)]. *)
Lemma in_role_refuses_scalars_witness :
  expect InElementRole (PInt 1) (Model.kw_in in_op)
  = ([Invoked LiteralCoercion InElementRole],
     Raise (ArgumentError
              (expected_message InElementRole
                 (get_argname (Model.kw_in in_op)) (PInt 1)))).
Proof.
  destruct (@in_role_refuses_scalars Model.elements (PInt 1)
              (Model.kw_in in_op) (Model.Column "x") in_op)
    as (Herr & _); try premise.
  apply Herr. reflexivity.
Defined.

(** X16: [column.in_([1, table])]. *)
Lemma in_role_refuses_incomparable_element_witness :
  exists log,
    expect InElementRole (PList [PInt 1; PNode (Model.Table "t")])
      (Model.kw_in in_op)
    = (log, Raise (ArgumentError
                     (expected_message InElementRole
                        (get_argname (Model.kw_in in_op))
                        (PList [PInt 1; PNode (Model.Table "t")])))).
Proof.
  apply (@in_role_refuses_incomparable_element Model.elements
           [PInt 1; PNode (Model.Table "t")] (Model.kw_in in_op)
           (Model.Column "x") in_op); try reflexivity.
  - intros H. discriminate H.
  - repeat constructor; eexists; eexists; reflexivity.
Defined.

(** X17: [column.in_(table)]. *)
Lemma from_clause_becomes_select_witness :
  expect InElementRole (PNode (Model.Table "t")) no_kw
  = ([Invoked ImplicitCoercions InElementRole],
     Return (PNode (Model.SelectFrom (Model.Table "t")))).
Proof.
  destruct (@from_clause_becomes_select Model.elements InElementRole
              (PNode (Model.Table "t")) (Model.Table "t") no_kw)
    as (Hfrom & _); try premise.
  apply Hfrom. reflexivity.
Defined.

(** X18: a name, and a hook-bearing column, as truncated labels. *)
Lemma truncated_label_takes_strings_only_witness :
  expect TruncatedLabelRole (PStr "name") no_kw
  = ([Invoked LiteralCoercion TruncatedLabelRole;
      Invoked ImplicitCoercions TruncatedLabelRole],
     Return (PTruncLabel "name"))
  /\ expect TruncatedLabelRole (PHook true (PNode (Model.Column "c"))) no_kw
     = ([Invoked LiteralCoercion TruncatedLabelRole;
         Invoked ImplicitCoercions TruncatedLabelRole],
        Raise (ArgumentError
                 (expected_message TruncatedLabelRole (get_argname no_kw)
                    (PHook true (PNode (Model.Column "c")))))).
Proof.
  split.
  - destruct (@truncated_label_takes_strings_only Model.elements
                (PStr "name") no_kw eq_refl eq_refl) as (_ & Hstr & _).
    apply (Hstr "name"). reflexivity.
  - destruct (@truncated_label_takes_strings_only Model.elements
                (PHook true (PNode (Model.Column "c"))) no_kw
                eq_refl eq_refl) as (_ & _ & Hother).
    apply Hother. reflexivity.
Defined.

(** X19: the limit 5, the limit "five" and an infinite limit. *)
Lemma limit_offset_binds_integers_witness :
  expect LimitOffsetRole (PInt 5) Model.kw_limit
  = ([Invoked LiteralCoercion LimitOffsetRole],
     Return (PNode (Model.TOffsetLimitParam None 5 None)))
  /\ expect LimitOffsetRole (PStr "five") Model.kw_limit
     = ([Invoked LiteralCoercion LimitOffsetRole], Raise ValueError)
  /\ expect LimitOffsetRole (PFloat "inf") Model.kw_limit
     = ([Invoked LiteralCoercion LimitOffsetRole], Raise OverflowError).
Proof.
  split; [|split].
  - destruct (@limit_offset_binds_integers Model.elements (PInt 5)
                Model.kw_limit None None) as (Hok & _);
      try premise.
    apply (Hok 5%Z); reflexivity.
  - destruct (@limit_offset_binds_integers Model.elements (PStr "five")
                Model.kw_limit None None) as (_ & Hval & _);
      try premise.
    apply Hval. reflexivity.
  - destruct (@limit_offset_binds_integers Model.elements (PFloat "inf")
                Model.kw_limit None None) as (_ & _ & _ & Hover);
      try premise.
    apply Hover. reflexivity.
Defined.

(** X20: [None] as a limit, in a call without [name] and [type_]. *)
Lemma required_options_are_required_witness :
  expect LimitOffsetRole PNone no_kw
  = ([Invoked LiteralCoercion LimitOffsetRole], Raise TypeError).
Proof.
  apply (@required_options_are_required Model.elements LimitOffsetRole
           PNone no_kw); try reflexivity.
  - right. split; [reflexivity|now left].
  - intros H. discriminate H.
Defined.


(** X22: a SELECT as an anonymized FROM clause, with [allow_select]. *)
Lemma anonymized_from_select_is_not_aliased_witness :
  expect AnonymizedFromClauseRole (PNode (Model.Select "s"))
    Model.kw_allow_select_true
  = ([Invoked ImplicitCoercions AnonymizedFromClauseRole;
      Deprecated subquery_notice],
     Return (PNode (Model.Subquery (Model.Select "s")))).
Proof.
  apply (@anonymized_from_select_is_not_aliased Model.elements
           (PNode (Model.Select "s")) (Model.Select "s")
           Model.kw_allow_select_true); reflexivity.
Defined.

(** X23: a table in a UNION. *)
Lemma compound_element_implicit_coercion_witness :
  expect CompoundElementRole (PNode (Model.Table "t")) no_kw
  = ([Invoked ImplicitCoercions CompoundElementRole],
     Return (PNode (Model.Table "t"))).
Proof.
  destruct (@compound_element_implicit_coercion Model.elements
              (PNode (Model.Table "t")) (Model.Table "t") no_kw
              eq_refl eq_refl) as (Hfrom & _).
  apply Hfrom; reflexivity.
Defined.

(** X24: a column as an ORDER BY expression, with [argname]. *)
Lemma order_by_takes_no_option_witness :
  expect OrderByRole (PNode (Model.Column "c"))
    (with_argname (Some "clauses") no_kw)
  = ([], Raise TypeError)
  /\ expect_as_key OrderByRole (PNode (Model.Column "c"))
       (with_argname (Some "clauses") no_kw)
     = ([], Raise TypeError).
Proof.
  destruct (@order_by_takes_no_option Model.elements
              (PNode (Model.Column "c")) (Model.Column "c")
              (with_argname (Some "clauses") no_kw) eq_refl eq_refl)
    as (Hopt & Hkey).
  split; [apply Hopt; reflexivity|exact Hkey].
Defined.

(** X25: the null constant as a labeled column. *)
Lemma labeled_column_labels_expressions_witness :
  expect LabeledColumnExprRole (PNode Model.TNull) no_kw
  = ([Invoked ImplicitCoercions LabeledColumnExprRole],
     Return (PNode (Model.Label "" Model.TNull))).
Proof.
  destruct (@labeled_column_labels_expressions Model.elements
              (PNode Model.TNull) Model.TNull no_kw eq_refl eq_refl)
    as (Hexpr & _).
  apply Hexpr. reflexivity.
Defined.

(** X26: the notices of a SELECT passed as a WHERE criterion. *)
Lemma notices_on_a_resolved_node_witness :
  (instance_of WhereHavingRole (Model.Select "s") = true ->
   notices (fst (expect WhereHavingRole (PNode (Model.Select "s")) no_kw))
   = [])
  /\ (notices (fst (expect WhereHavingRole (PNode (Model.Select "s")) no_kw))
      = []
      \/ notices (fst (expect WhereHavingRole
                         (PNode (Model.Select "s")) no_kw))
         = [scalar_subquery_notice]
      \/ notices (fst (expect WhereHavingRole
                         (PNode (Model.Select "s")) no_kw))
         = [subquery_notice]).
Proof.
  apply (@notices_on_a_resolved_node Model.elements WhereHavingRole
           (PNode (Model.Select "s")) (Model.Select "s") no_kw);
    [discriminate|reflexivity].
Defined.

(** X27: a hook that returns the number 5, as a WHERE criterion. *)
Lemma hook_ending_in_a_plain_value_witness :
  expect WhereHavingRole (PHook true (PInt 5)) no_kw
  = ([Invoked ImplicitCoercions WhereHavingRole], Raise AttributeError).
Proof.
  apply (@hook_ending_in_a_plain_value Model.elements WhereHavingRole
           (PHook true (PInt 5)) no_kw); reflexivity.
Defined.

(** X28: a mapped class in the columns clause. *)
Lemma inspected_value_is_transparent_witness :
  expect ColumnsClauseRole
    (PObj {| obj_name := "MappedClass"; obj_visitable := false;
             obj_column_operators := false |}) no_kw
  = expect ColumnsClauseRole (PNode (Model.Table "mapped_table")) no_kw
  /\ calls_no_coercion
       (expect ColumnsClauseRole
          (PObj {| obj_name := "MappedClass"; obj_visitable := false;
                   obj_column_operators := false |}) no_kw).
Proof.
  apply (@inspected_value_is_transparent Model.elements ColumnsClauseRole
           (PObj {| obj_name := "MappedClass"; obj_visitable := false;
                    obj_column_operators := false |})
           (Model.Table "mapped_table") no_kw);
    try reflexivity. discriminate.
Defined.

(** X29: a name and a column as the columns of a constraint. *)
Lemma col_expression_collection_invariant_witness :
  length
    [ {| ce_resolved := PStr "a"; ce_column := PNone;
         ce_strname := PStr "a"; ce_add_element := PStr "a" |};
      {| ce_resolved := PNode (Model.Column "b");
         ce_column := PNode (Model.Column "b"); ce_strname := PNone;
         ce_add_element := PNode (Model.Column "b") |} ]
  = length [PStr "a"; PNode (Model.Column "b")]
  /\ Forall (fun e =>
               (ce_column e = PNone \/ ce_strname e = PNone)
               /\ ce_add_element e
                  = match ce_column e with
                    | PNone => ce_strname e
                    | c => c
                    end)
       [ {| ce_resolved := PStr "a"; ce_column := PNone;
            ce_strname := PStr "a"; ce_add_element := PStr "a" |};
         {| ce_resolved := PNode (Model.Column "b");
            ce_column := PNode (Model.Column "b"); ce_strname := PNone;
            ce_add_element := PNode (Model.Column "b") |} ].
Proof.
  apply (@col_expression_collection_invariant Model.elements
           Model.tcolumn_nodes DDLConstraintColumnRole
           [PStr "a"; PNode (Model.Column "b")]
           [Invoked LiteralCoercion DDLConstraintColumnRole;
            Invoked ImplicitCoercions DDLConstraintColumnRole]).
  reflexivity.
Defined.

(** X30: two column names as the columns of a constraint. *)
Lemma col_expression_collection_of_names_witness :
  snd (expect_col_expression_collection Model.tcolumn_nodes
         DDLConstraintColumnRole (map PStr ["id"; "name"]))
  = Return (map (fun s => {| ce_resolved := PStr s; ce_column := PNone;
                             ce_strname := PStr s;
                             ce_add_element := PStr s |}) ["id"; "name"]).
Proof.
  apply (@col_expression_collection_of_names Model.elements
           Model.tcolumn_nodes DDLConstraintColumnRole ["id"; "name"]);
    [reflexivity|].
  intros s H. discriminate H.
Defined.
